(** * stock_market.analysis.index: the MarketWatch scraper, embedded in Rocq

    A shallow embedding of [src/stock_market/analysis/index.py]:
    [IndexView.__init__], [_sp500] and [_stock_performers_ws].

    The Python code runs against three libraries whose objects it handles:
    bs4 (a parsed document tree, [find], [find_all], [.text], [len]),
    requests ([get]) and pandas (the [DataFrame] constructor on a list of
    rows).  Each library call the source makes has a model below, with
    the behaviour of the library that the model records written next to it.
    Python exceptions and the two effects of the module (HTTP requests,
    [print]) live in a small state-and-exception monad. *)

From Stdlib Require Import List String Ascii Bool Arith Lia Sorted.
From Stdlib Require OrderedTypeEx.
Import ListNotations.
Open Scope string_scope.
Open Scope list_scope.
Open Scope nat_scope.

Set Implicit Arguments.

(* ===================================================================== *)
(** ** Python strings *)
(* ===================================================================== *)

Module Str.

(** The line break ["\n"]. *)
Definition nl : ascii := "010"%char.

(** [s.replace("\n", "")]: every line break removed. *)
Fixpoint replace_nl (s : string) : string :=
  match s with
  | EmptyString => EmptyString
  | String c s' =>
      if Ascii.eqb c nl then replace_nl s' else String c (replace_nl s')
  end.

(** [s.split("\n")]: the fragments between line breaks, empty ones kept;
    the split of the empty string is [[""]]. *)
Fixpoint split_nl (s : string) : list string :=
  match s with
  | EmptyString => [EmptyString]
  | String c s' =>
      if Ascii.eqb c nl then EmptyString :: split_nl s'
      else match split_nl s' with
           | [] => [String c EmptyString]
           | f :: fs => String c f :: fs
           end
  end.

(** Truthiness of a string: [bool(s)] is false exactly on [""]. *)
Definition truthy (s : string) : bool :=
  match s with EmptyString => false | String _ _ => true end.

(** [list(filter(None, l))] on a list of strings. *)
Definition filter_None (l : list string) : list string := filter truthy l.

(** [pat in s]: substring test. *)
Fixpoint contains (pat s : string) : bool :=
  if prefix pat s then true
  else match s with
       | EmptyString => false
       | String _ s' => contains pat s'
       end.

(** [" ".join(l)]. *)
Definition join_space (l : list string) : string := String.concat " " l.

(** [c.upper()] on an ASCII letter; every other byte is left as it is. *)
Definition upper_ascii (c : ascii) : ascii :=
  let n := nat_of_ascii c in
  if (97 <=? n) && (n <=? 122) then ascii_of_nat (n - 32) else c.

(** [s.upper()] on a string of ASCII characters.  Python upper-cases by
    the Unicode tables, which this function does not hold: on a string with
    a character outside ASCII it is not [str.upper], and the statements
    about identifiers are made for the strings that pass [is_ascii]. *)
Fixpoint upper (s : string) : string :=
  match s with
  | EmptyString => EmptyString
  | String c s' => String (upper_ascii c) (upper s')
  end.

(** [s.isascii()]: every character of [s] is below 128. *)
Definition is_ascii (s : string) : bool :=
  forallb (fun c => nat_of_ascii c <? 128) (list_ascii_of_string s).

(** [x in l] for a list of strings. *)
Definition mem (x : string) (l : list string) : bool :=
  existsb (String.eqb x) l.

End Str.

(* ===================================================================== *)
(** ** Python dictionaries

    A [dict] keeps its keys in insertion order; assigning to a key that is
    already there replaces the value and keeps the key's place. *)
(* ===================================================================== *)

Module Dict.
Section Dict.
Variable V : Type.

Definition t := list (string * V).

Definition empty : t := [].

(** [d[k] = v] *)
Fixpoint set (k : string) (v : V) (d : t) : t :=
  match d with
  | [] => [(k, v)]
  | (k', v') :: d' =>
      if String.eqb k' k then (k, v) :: d' else (k', v') :: set k v d'
  end.

(** [d.get(k)] *)
Fixpoint get (k : string) (d : t) : option V :=
  match d with
  | [] => None
  | (k', v') :: d' => if String.eqb k' k then Some v' else get k d'
  end.

Definition keys (d : t) : list string := map fst d.

(** [dict(pairs)]: the pairs assigned in order into [d]. *)
Definition update (d : t) (pairs : list (string * V)) : t :=
  fold_left (fun acc kv => set (fst kv) (snd kv) acc) pairs d.

End Dict.
Arguments empty {V}.
End Dict.
Arguments Dict.update : simpl never.

(* ===================================================================== *)
(** ** bs4: the parsed document *)
(* ===================================================================== *)

(** A node of the parsed tree is a string or a tag.  Of a tag's attributes
    the code looks at [class] only; bs4 stores it as the list of its
    whitespace-separated tokens, and a tag without the attribute has none. *)
#[warnings="-register-all"]
Inductive PageElement : Type :=
| NavigableString (s : string)
| Tag (name : string) (class_ : option (list string))
      (contents : list PageElement).

Module Bs4.

(** [tag.text]: the strings below the tag, concatenated in document
    order. *)
Fixpoint text (e : PageElement) : string :=
  match e with
  | NavigableString s => s
  | Tag _ _ cs =>
      (fix go (l : list PageElement) : string :=
         match l with
         | [] => EmptyString
         | c :: l' => String.append (text c) (go l')
         end) cs
  end.

(** [tag.descendants]: every node below the tag, in document order. *)
Fixpoint descendants (e : PageElement) : list PageElement :=
  match e with
  | NavigableString _ => []
  | Tag _ _ cs =>
      (fix go (l : list PageElement) : list PageElement :=
         match l with
         | [] => []
         | c :: l' => (c :: descendants c) ++ go l'
         end) cs
  end.

Definition has_name (nm : string) (e : PageElement) : bool :=
  match e with
  | NavigableString _ => false
  | Tag n _ _ => String.eqb n nm
  end.

(** [tag.find_all(nm)] *)
Definition find_all (nm : string) (e : PageElement) : list PageElement :=
  filter (has_name nm) (descendants e).

(** [len(tag)] is [len(tag.contents)]; the length of a string is its
    number of characters. *)
Definition len (e : PageElement) : nat :=
  match e with
  | NavigableString s => String.length s
  | Tag _ _ cs => List.length cs
  end.

(** How bs4 matches a compiled pattern against the multi-valued [class]
    attribute: some token matches, or the tokens joined by a blank do.  A
    tag without the attribute matches no pattern. *)
Definition class_matches (search : string -> bool) (e : PageElement) : bool :=
  match e with
  | NavigableString _ => false
  | Tag _ None _ => false
  | Tag _ (Some toks) _ => existsb search toks || search (Str.join_space toks)
  end.

(** [tag.find(nm, {"class": regex})]: the first descendant with that name
    whose class matches, [None] when there is none. *)
Definition find (nm : string) (search : string -> bool) (e : PageElement)
  : option PageElement :=
  List.find (fun d => has_name nm d && class_matches search d) (descendants e).

End Bs4.

(* ===================================================================== *)
(** ** Exceptions and effects *)
(* ===================================================================== *)

(** The Python exceptions that the module can raise; [ConnectionError]
    stands for whatever [requests.get] raises when the transport fails. *)
Inductive exn : Type :=
| TypeError | IndexError | KeyError | ValueError | AttributeError
| Warning | ConnectionError.

(** What a call does: it returns a value or raises. *)
Inductive outcome (A : Type) : Type :=
| Return (a : A)
| Raise (e : exn).
Arguments Raise {A} e.

Definition obind {A B} (c : outcome A) (k : A -> outcome B) : outcome B :=
  match c with
  | Return a => k a
  | Raise e => Raise e
  end.

Notation "'let?' x ':=' c 'in' k" := (obind c (fun x => k))
  (at level 10, x name, c at level 100, k at level 200).

(** [l[i]]: IndexError out of range. *)
Definition getitem {A} (l : list A) (i : nat) : outcome A :=
  match nth_error l i with
  | Some a => Return a
  | None => Raise IndexError
  end.

(** [d[k]] on a dictionary: KeyError on a missing key. *)
Definition getkey {V} (d : Dict.t V) (k : string) : outcome V :=
  match Dict.get k d with
  | Some v => Return v
  | None => Raise KeyError
  end.

(** [for i in idx: s = body(s, i)], stopping at the first exception. *)
Fixpoint for_ {S} (idx : list nat) (body : S -> nat -> outcome S) (s : S)
  : outcome S :=
  match idx with
  | [] => Return s
  | i :: idx' => let? s' := body s i in for_ idx' body s'
  end.

(** [range(start, stop)] *)
Definition range (start stop : nat) : list nat := seq start (stop - start).

(** [range(0, stop, 2)]: 0, 2, 4, ... below [stop]. *)
Definition range_step2 (stop : nat) : list nat :=
  map (fun j => 2 * j) (seq 0 (Nat.div2 (S stop))).

(** The world a call runs in: what the site serves at the n-th request (the
    tree that [html.parser] builds from the response body, or nothing when the
    transport fails), the URLs requested so far, and the lines printed. *)
Record world : Type := mkWorld {
  responses : nat -> option PageElement;
  requested : list string;
  stdout : list string
}.

Definition M (A : Type) : Type := world -> outcome A * world.

Definition ret {A} (a : A) : M A := fun w => (Return a, w).

Definition raise {A} (e : exn) : M A := fun w => (Raise e, w).

Definition bind {A B} (c : M A) (k : A -> M B) : M B :=
  fun w =>
    match c w with
    | (Return a, w') => k a w'
    | (Raise e, w') => (Raise e, w')
    end.

Notation "x <- c ;; k" := (bind c (fun x => k))
  (at level 100, c at next level, right associativity).

Definition lift {A} (c : outcome A) : M A := fun w => (c, w).

(** [print(line)] *)
Definition print (line : string) : M unit :=
  fun w => (Return tt,
            {| responses := responses w;
               requested := requested w;
               stdout := stdout w ++ [line] |}).

(** [bs4.BeautifulSoup(requests.get(url).content, "html.parser")]: one HTTP
    GET, whose body is parsed into a tree. *)
Definition get_soup (url : string) : M PageElement :=
  fun w =>
    let w' := {| responses := responses w;
                 requested := requested w ++ [url];
                 stdout := stdout w |} in
    match responses w (List.length (requested w)) with
    | Some page => (Return page, w')
    | None => (Raise ConnectionError, w')
    end.

(* ===================================================================== *)
(** ** pandas: the DataFrame constructor *)
(* ===================================================================== *)

Module Pd.

(** A frame of strings: the column names and the rows; a cell that no
    input filled holds [None]. *)
Record DataFrame : Type := mkDataFrame {
  columns : list string;
  values : list (list (option string))
}.

(** The width of the object array that pandas builds from a list of rows:
    the length of the longest row. *)
Definition width (data : list (list string)) : nat :=
  fold_right (fun row m => Nat.max (List.length row) m) 0 data.

(** A row of that array: its cells, then [None] up to the width. *)
Definition pad (w : nat) (row : list string) : list (option string) :=
  map Some row ++ repeat None (w - List.length row).

(** [pd.DataFrame(data, columns=columns)] for a list of lists.  With no
    rows the frame is empty under the given columns.  Otherwise pandas
    lays the rows out in an array as wide as the longest row, shorter rows
    filled with [None], and raises ValueError
    ("<n> columns passed, passed data had <m> columns") unless the number
    of column names is that width. *)
Definition DataFrame_ (data : list (list string)) (cols : list string)
  : outcome DataFrame :=
  match data with
  | [] => Return {| columns := cols; values := [] |}
  | _ :: _ =>
      if List.length cols =? width data
      then Return {| columns := cols; values := map (pad (width data)) data |}
      else Raise ValueError
  end.

End Pd.

(** The values that [_sp500] stores under a metric. *)
Inductive pyval : Type :=
| PyNone
| PyDict (d : Dict.t string)
| PyDataFrame (df : Pd.DataFrame).

Definition of_optional (o : option Pd.DataFrame) : pyval :=
  match o with
  | None => PyNone
  | Some df => PyDataFrame df
  end.

(* ===================================================================== *)
(** ** The module [stock_market.analysis.index] *)
(* ===================================================================== *)

Definition AVAILABLE_INDEX : list string := ["SP500"].

(** *** [_stock_performers_ws] *)

(** [list(filter(None, row.text.split("\n")))] *)
Definition row_cells (row : PageElement) : list string :=
  Str.filter_None (Str.split_nl (Bs4.text row)).

(** Web scrapes the top and bottom performing stocks for an index in
    MarketWatch: [None] for a container without rows, else the frame of the
    rows under the names of the first one. *)
Definition _stock_performers_ws (data : PageElement)
  : outcome (option Pd.DataFrame) :=
  let data_ws := Bs4.find_all "tr" data in
  if List.length data_ws =? 0 then Return None
  else
    (* First row is the column names *)
    let? row0 := getitem data_ws 0 in
    let col_names := row_cells row0 in
    (* Extract all other row info *)
    let? stock_data :=
      for_ (range 1 (List.length data_ws))
           (fun stock_data row =>
              let? r := getitem data_ws row in
              Return (stock_data ++ [row_cells r]))
           [] in
    (* Form pandas dataframe *)
    let? data_df := Pd.DataFrame_ stock_data col_names in
    Return (Some data_df).

(** *** [_sp500] *)

Definition index_url : string := "https://www.marketwatch.com/investing/index/spx".

Definition performance_by_period : string := "performance".
Definition performance_top_stocks : string := "ByIndexGainers".
Definition performance_bottom_stocks : string := "ByIndexDecliners".

(** [re.compile(f"element element--table ({metric})").search(s)].  The metric
    names are alphabetic and the pattern has no operator but the group around
    the name, so it matches the text
    ["element element--table " + metric] anywhere in [s]. *)
Definition regex_search (metric : string) (s : string) : bool :=
  Str.contains (String.append "element element--table " metric) s.

(** [len(x)] where [x] is what [find] returned: [len(None)] is a
    TypeError. *)
Definition len (x : option PageElement) : outcome nat :=
  match x with
  | None => Raise TypeError
  | Some e => Return (Bs4.len e)
  end.

(** [x.find_all] where [x] is a value stored in [ws_dict]: a method call on
    [None] is an AttributeError. *)
Definition as_tag (x : option PageElement) : outcome PageElement :=
  match x with
  | None => Raise AttributeError
  | Some e => Return e
  end.

(** [f"The web-scrape metric name seems to be changed for {metric}."] *)
Definition changed_message (metric : string) : string :=
  String.append "The web-scrape metric name seems to be changed for "
                (String.append metric ".").

(** The body of the loop over the metrics.  It returns the
    dictionary with what [find] gave stored under the metric, or [None]
    where the function leaves with [return None]. *)
Definition locate (metric : string) (ws_dict : Dict.t (option PageElement))
  : M (option (Dict.t (option PageElement))) :=
  (* Web Scraped data *)
  soup <- get_soup index_url ;;
  let ws_metric := Bs4.find "div" (regex_search metric) soup in
  (* Check if data return requires a webscrape fix *)
  n <- lift (len ws_metric) ;;
  if n =? 0 then
    _ <- print (changed_message metric) ;;
    ret None
  else ret (Some (Dict.set metric ws_metric ws_dict)).

(** [for metric in metrics: ...], left at the first [return None]. *)
Fixpoint locate_all (metrics : list string)
    (ws_dict : Dict.t (option PageElement))
  : M (option (Dict.t (option PageElement))) :=
  match metrics with
  | [] => ret (Some ws_dict)
  | metric :: rest =>
      r <- locate metric ws_dict ;;
      match r with
      | None => ret None
      | Some ws_dict' => locate_all rest ws_dict'
      end
  end.

(** [cell.text.replace("\n", "")] *)
Definition cell_text (cell : PageElement) : string :=
  Str.replace_nl (Bs4.text cell).

(** 1) Performance per periods: the loop that fills [data_1] from the cells
    [data] (in [_sp500], the [td] elements of the first container).  In
    [data_1[k] = v] Python evaluates [v] first. *)
Definition performance_per_periods (data : list PageElement)
  : outcome (Dict.t string) :=
  for_ (range_step2 (List.length data))
       (fun data_1 i =>
          (* Every even index represents the info and odd index represents
             the value *)
          let? value := getitem data (i + 1) in
          let? info := getitem data i in
          Return (Dict.set (cell_text info) (cell_text value) data_1))
       Dict.empty.

Definition _sp500 : M (option (Dict.t pyval)) :=
  (* Search and store the following information *)
  r <- locate_all [performance_by_period;
                   performance_top_stocks;
                   performance_bottom_stocks] Dict.empty ;;
  match r with
  | None => ret None
  | Some ws_dict =>
      (* 1) Performance per periods *)
      c1 <- lift (let? x := getkey ws_dict performance_by_period in as_tag x) ;;
      data_1 <- lift (performance_per_periods (Bs4.find_all "td" c1)) ;;
      (* 2) Top performing stocks today *)
      c2 <- lift (let? x := getkey ws_dict performance_top_stocks in as_tag x) ;;
      data_2 <- lift (_stock_performers_ws c2) ;;
      (* 3) Bottom performing stocks today *)
      c3 <- lift (let? x := getkey ws_dict performance_bottom_stocks in as_tag x) ;;
      data_3 <- lift (_stock_performers_ws c3) ;;
      (* All data store *)
      let metric_data := Dict.empty in
      let metric_data :=
        Dict.set performance_by_period (PyDict data_1) metric_data in
      let metric_data :=
        Dict.set performance_top_stocks (of_optional data_2) metric_data in
      let metric_data :=
        Dict.set performance_bottom_stocks (of_optional data_3) metric_data in
      ret (Some metric_data)
  end.

(** *** [IndexView] *)

Module IndexView.

Record t : Type := mk {
  data : Pd.DataFrame;
  _column_names : Dict.t string;
  sector_list : list (option string);
  _summary : option (Dict.t (Dict.t (Dict.t nat)))
}.

(** [df[name]]: the cells of the column called [name], KeyError when the
    frame has no such column.  This is for frames whose column names are
    distinct: under a repeated name pandas gives a frame, not a column. *)
Fixpoint position (name : string) (cols : list string) : option nat :=
  match cols with
  | [] => None
  | c :: cols' =>
      if String.eqb c name then Some 0
      else option_map S (position name cols')
  end.

Definition column (df : Pd.DataFrame) (name : string)
  : outcome (list (option string)) :=
  match position name (Pd.columns df) with
  | None => Raise KeyError
  | Some j => Return (map (fun row => nth j row None) (Pd.values df))
  end.

Definition cell_eqb (x y : option string) : bool :=
  match x, y with
  | None, None => true
  | Some a, Some b => String.eqb a b
  | _, _ => false
  end.

(** [list(set(col))]: one copy of each value.  The order Python gives them
    is not fixed; here each value stands where it occurs last.  A missing
    value is kept once or once per row, by the way pandas stores the column;
    here it is kept once, and the statements about the result count the
    values that are not null only. *)
Fixpoint list_set (col : list (option string)) : list (option string) :=
  match col with
  | [] => []
  | x :: col' =>
      if existsb (cell_eqb x) col' then list_set col' else x :: list_set col'
  end.

(** The constructor.  The reference tables of the module
    [stock_market.data], one per index, are the parameter
    [stock_market_data]; [getattr] on a name the module lacks is an
    AttributeError. *)
Definition __init__ (stock_market_data : string -> option Pd.DataFrame)
    (index : string) : M t :=
  (* Check availability of index *)
  let index_name := Str.upper index in
  if negb (Str.mem index_name AVAILABLE_INDEX) then raise Warning
  else
    (* Extract specified index data *)
    data <- lift (match stock_market_data index_name with
                  | Some df => Return df
                  | None => Raise AttributeError
                  end) ;;
    (* Column name constants *)
    let column_names :=
      Dict.set "ticker_sector" "Sector"
        (Dict.set "ticker_full" "Name"
           (Dict.set "ticker_symbol" "Ticker" Dict.empty)) in
    (* Self stores *)
    ticker_sector <- lift (getkey column_names "ticker_sector") ;;
    sectors <- lift (column data ticker_sector) ;;
    ret {| data := data;
           _column_names := column_names;
           sector_list := list_set sectors;
           _summary := None |}.

End IndexView.

(** *** [IndexView.summary] *)

(** The group keys of a [groupby]: the distinct values, in ascending
    order. *)
Fixpoint insert_key (s : string) (keys : list string) : list string :=
  match keys with
  | [] => [s]
  | k :: keys' =>
      match String.compare s k with
      | Eq => keys
      | Lt => s :: keys
      | Gt => k :: insert_key s keys'
      end
  end.

(** The keys under which [groupby] collects the rows of a column: its
    values without the null cells. *)
Definition group_keys (col : list (option string)) : list string :=
  fold_right (fun cell keys =>
                match cell with
                | Some s => insert_key s keys
                | None => keys
                end) [] col.

(** [count()] in the group [s]: the rows of the group whose counted cell is
    not null. *)
Definition group_count (rows : list (option string * option string))
    (s : string) : nat :=
  List.length
    (filter (fun row =>
               match row with
               | (Some _, Some s') => String.eqb s' s
               | _ => false
               end) rows).

(** [df[[a, b]].groupby([b]).count().to_dict()[a]] on a frame whose column
    names are distinct: for every value of column [b], in ascending order,
    the number of its rows with a cell in column [a]; KeyError when the frame
    lacks one of the columns.  (Under a repeated name pandas does not group
    by a column; the statements about [summary] take the names distinct.) *)
Definition groupby_count (df : Pd.DataFrame) (a b : string)
  : outcome (Dict.t nat) :=
  let? col_a := IndexView.column df a in
  let? col_b := IndexView.column df b in
  Return (map (fun s => (s, group_count (combine col_a col_b) s))
              (group_keys col_b)).

Definition set_summary (self : IndexView.t)
    (index_info : Dict.t (Dict.t (Dict.t nat))) : IndexView.t :=
  {| IndexView.data := IndexView.data self;
     IndexView._column_names := IndexView._column_names self;
     IndexView.sector_list := IndexView.sector_list self;
     IndexView._summary := Some index_info |}.

(** The property [summary]: it fills [self._summary] when that is [None],
    reads the sector counts back from it and returns [None]; the object as
    the call leaves it is returned here.  [pd.DataFrame.from_dict] of a
    dictionary of dictionaries builds a frame without raising, and the
    property drops that frame. *)
Definition summary (self : IndexView.t) : outcome IndexView.t :=
  let? self' :=
    match IndexView._summary self with
    | None =>
        (* Setup for metric population *)
        let data := IndexView.data self in
        let? ticker_symbol :=
          getkey (IndexView._column_names self) "ticker_symbol" in
        let? ticker_sector :=
          getkey (IndexView._column_names self) "ticker_sector" in
        (* Number of stocks by sector *)
        let? counts := groupby_count data ticker_symbol ticker_sector in
        let sector_count := Dict.set "sector_count" counts Dict.empty in
        let index_info := Dict.set "sector_count" sector_count Dict.empty in
        Return (set_summary self index_info)
    | Some _ => Return self
    end in
  (* Populate sector count in pandas form *)
  let? index_info :=
    match IndexView._summary self' with
    | None => Raise TypeError
    | Some index_info => Return index_info
    end in
  let? sector_count := getkey index_info "sector_count" in
  Return self'.

(* ===================================================================== *)
(** ** Definitions used in the statements *)
(* ===================================================================== *)

(** The cells taken two at a time, as pairs of texts; a last cell without a
    partner is left out. *)
Fixpoint pairwise (data : list PageElement) : list (string * string) :=
  match data with
  | info :: value :: rest => (cell_text info, cell_text value) :: pairwise rest
  | _ => []
  end.

(** The world after one more request of the index page. *)
Definition requested_once (w : world) : world :=
  {| responses := responses w;
     requested := requested w ++ [index_url];
     stdout := stdout w |}.

(** The world after [line] is printed. *)
Definition printed (line : string) (w : world) : world :=
  {| responses := responses w;
     requested := requested w;
     stdout := stdout w ++ [line] |}.

(** The part of [_sp500] after the loop: the three extractions from the
    stored containers and the final dictionary. *)
Definition extract_all (ws_dict : Dict.t (option PageElement))
  : outcome (option (Dict.t pyval)) :=
  let? c1 := (let? x := getkey ws_dict performance_by_period in as_tag x) in
  let? data_1 := performance_per_periods (Bs4.find_all "td" c1) in
  let? c2 := (let? x := getkey ws_dict performance_top_stocks in as_tag x) in
  let? data_2 := _stock_performers_ws c2 in
  let? c3 := (let? x := getkey ws_dict performance_bottom_stocks in as_tag x) in
  let? data_3 := _stock_performers_ws c3 in
  Return (Some [(performance_by_period, PyDict data_1);
                (performance_top_stocks, of_optional data_2);
                (performance_bottom_stocks, of_optional data_3)]).

(** What [find] gives for each metric when the requests start at number
    [n]: every metric is looked up in the page of its own request. *)
Fixpoint containers (resp : nat -> option PageElement) (n : nat)
    (metrics : list string) : list (option PageElement) :=
  match metrics with
  | [] => []
  | metric :: rest =>
      match resp n with
      | Some soup => Bs4.find "div" (regex_search metric) soup
      | None => None
      end :: containers resp (S n) rest
  end.

(** A container that passes the check of the loop. *)
Definition located (c : option PageElement) : Prop :=
  exists tag, c = Some tag /\ Bs4.len tag <> 0.

(** ** Sample documents *)

Module Sample.

(** A cell holding [s]. *)
Definition td (s : string) : PageElement := Tag "td" None [NavigableString s].

Definition br : PageElement := NavigableString (String Str.nl EmptyString).

(** A table row as the site writes it: its cells on lines of their own. *)
Definition tr (cells : list string) : PageElement :=
  Tag "tr" None (br :: flat_map (fun c => [td c; br]) cells).

(** The block of a metric, with the site's class attribute
    [class="element element--table <metric>"]. *)
Definition block (metric : string) (body : list PageElement) : PageElement :=
  Tag "div" (Some ["element"; "element--table"; metric]) body.

Definition periods : PageElement :=
  block performance_by_period
    [Tag "table" None
       [Tag "tr" None [td "1 Day"; td "+1.2%"];
        Tag "tr" None [td "1 Year"; td "+15.0%"]]].

Definition gainers : PageElement :=
  block performance_top_stocks
    [Tag "table" None [tr ["Name"; "Last"]; tr ["AAA"; "1.0"]; tr ["BBB"; "3.5"]]].

Definition decliners : PageElement :=
  block performance_bottom_stocks
    [Tag "table" None [tr ["Name"; "Last"]; tr ["CCC"; "2.0"]]].

Definition document (blocks : list PageElement) : PageElement :=
  Tag "[document]" None [Tag "html" None [Tag "body" None blocks]].

(** A page with the three blocks filled. *)
Definition page : PageElement := document [periods; gainers; decliners].

(** The same page, its gainers block holding a note in place of a
    table. *)
Definition page_no_gainer_rows : PageElement :=
  document [periods;
            block performance_top_stocks [NavigableString "No data"];
            decliners].

(** A site that serves [p] at every request; nothing requested or printed
    yet. *)
Definition serving (p : PageElement) : world :=
  {| responses := fun _ => Some p; requested := []; stdout := [] |}.

End Sample.

(** The world after [k] more requests of the index page. *)
Definition requested_times (k : nat) (w : world) : world :=
  {| responses := responses w;
     requested := requested w ++ repeat index_url k;
     stdout := stdout w |}.

(** The labels in the order in which each occurs first. *)
Fixpoint first_occurrences (labels : list string) : list string :=
  match labels with
  | [] => []
  | x :: labels' =>
      x :: filter (fun y => negb (String.eqb y x)) (first_occurrences labels')
  end.

(** A text without a line break. *)
Definition no_line_break (s : string) : Prop :=
  ~ In Str.nl (list_ascii_of_string s).

(** The order of the group keys: [a < b] on strings. *)
Definition key_lt (a b : string) : Prop := String.compare a b = Lt.

(** A row that [count()] counts: it has a cell to count and a group. *)
Definition counted (row : option string * option string) : bool :=
  match row with
  | (Some _, Some _) => true
  | _ => false
  end.

(** ** Sample reference data *)

Module SampleData.

(** A reference table of four stocks, one of them without a ticker. *)
Definition table : Pd.DataFrame :=
  {| Pd.columns := ["Ticker"; "Name"; "Sector"];
     Pd.values :=
       [[Some "AAA"; Some "Alpha"; Some "Utilities"];
        [Some "BBB"; Some "Beta"; Some "Energy"];
        [None; Some "Gamma"; Some "Utilities"];
        [Some "DDD"; Some "Delta"; Some "Utilities"]] |}.

(** The module [stock_market.data] with the table of the S&P 500 only. *)
Definition stock_market_data (name : string) : option Pd.DataFrame :=
  if String.eqb name "SP500" then Some table else None.

(** The same table without its ticker column. *)
Definition table_no_ticker : Pd.DataFrame :=
  {| Pd.columns := ["Name"; "Sector"];
     Pd.values := [[Some "Alpha"; Some "Utilities"];
                   [Some "Beta"; Some "Energy"]] |}.

(** A site whose first [k] requests are served [p] and whose later
    requests are served [q]. *)
Definition serving_then (k : nat) (p : PageElement) (q : option PageElement)
  : world :=
  {| responses := fun n => if n <? k then Some p else q;
     requested := []; stdout := [] |}.

End SampleData.

(* ===================================================================== *)
(** * Properties *)
(* ===================================================================== *)

(** ** Dictionaries *)

Section DictFacts.
Variable V : Type.
Implicit Types (d : Dict.t V) (k : string) (v : V).

Lemma get_set_same d k v : Dict.get k (Dict.set k v d) = Some v.
Proof.
  induction d as [|[k' v'] d IH]; simpl.
  - now rewrite String.eqb_refl.
  - destruct (String.eqb k' k) eqn:E; simpl.
    + now rewrite String.eqb_refl.
    + now rewrite E.
Qed.

Lemma get_set_other d k k' v :
  k <> k' -> Dict.get k (Dict.set k' v d) = Dict.get k d.
Proof.
  intros Hne. induction d as [|[k0 v0] d IH]; simpl.
  - destruct (String.eqb_spec k' k); congruence.
  - destruct (String.eqb_spec k0 k'); simpl.
    + subst k0. destruct (String.eqb_spec k' k); congruence.
    + now rewrite IH.
Qed.

Lemma in_keys_set d k k' v :
  In k (Dict.keys (Dict.set k' v d)) <-> k = k' \/ In k (Dict.keys d).
Proof.
  unfold Dict.keys. induction d as [|[k0 v0] d IH]; simpl.
  - intuition.
  - destruct (String.eqb_spec k0 k'); simpl.
    + subst. intuition.
    + rewrite IH. intuition.
Qed.

Lemma set_fresh d k v :
  ~ In k (Dict.keys d) -> Dict.set k v d = d ++ [(k, v)].
Proof.
  unfold Dict.keys. induction d as [|[k0 v0] d IH]; simpl; intros Hn.
  - reflexivity.
  - destruct (String.eqb_spec k0 k).
    + subst. tauto.
    + rewrite IH; tauto.
Qed.

Lemma count_keys_set d k k' v :
  count_occ string_dec (Dict.keys (Dict.set k' v d)) k =
  if in_dec string_dec k' (Dict.keys d)
  then count_occ string_dec (Dict.keys d) k
  else count_occ string_dec (Dict.keys d) k
       + (if string_dec k' k then 1 else 0).
Proof.
  destruct (in_dec string_dec k' (Dict.keys d)) as [Hin|Hn].
  - unfold Dict.keys in *. induction d as [|[k0 v0] d IH]; simpl in *.
    + tauto.
    + destruct (String.eqb_spec k0 k'); simpl.
      * now subst.
      * destruct Hin as [?|Hin]; [congruence|].
        rewrite (IH Hin). reflexivity.
  - rewrite set_fresh by assumption. unfold Dict.keys.
    rewrite map_app, count_occ_app. simpl.
    destruct (string_dec k' k); reflexivity.
Qed.

Lemma update_snoc d l k v :
  Dict.update d (l ++ [(k, v)]) = Dict.set k v (Dict.update d l).
Proof. unfold Dict.update. now rewrite fold_left_app. Qed.

Lemma update_cons d l k v :
  Dict.update d ((k, v) :: l) = Dict.update (Dict.set k v d) l.
Proof. reflexivity. Qed.

Lemma get_update_notin l d k :
  ~ In k (map fst l) -> Dict.get k (Dict.update d l) = Dict.get k d.
Proof.
  revert d. induction l as [|[k' v'] l IH]; simpl; intros d Hn.
  - reflexivity.
  - rewrite update_cons, IH by tauto.
    apply get_set_other. intros ->. tauto.
Qed.

(** The value under a key is the one of its last assignment. *)
Lemma get_update_last l1 l2 d k v :
  ~ In k (map fst l2) ->
  Dict.get k (Dict.update d (l1 ++ (k, v) :: l2)) = Some v.
Proof.
  intros Hn. unfold Dict.update. rewrite fold_left_app. simpl.
  fold (Dict.update (Dict.set k v (fold_left
          (fun acc kv => Dict.set (fst kv) (snd kv) acc) l1 d)) l2).
  rewrite get_update_notin by assumption.
  apply get_set_same.
Qed.

Lemma in_keys_update l d k :
  In k (Dict.keys (Dict.update d l)) <-> In k (Dict.keys d) \/ In k (map fst l).
Proof.
  revert d. induction l as [|[k' v'] l IH]; simpl; intros d.
  - tauto.
  - rewrite update_cons, IH, in_keys_set. intuition.
Qed.

Lemma count_keys_update l d k :
  count_occ string_dec (Dict.keys d) k <= 1 ->
  count_occ string_dec (Dict.keys (Dict.update d l)) k <= 1.
Proof.
  revert d. induction l as [|[k' v'] l IH]; simpl; intros d Hd.
  - assumption.
  - rewrite update_cons. apply IH. rewrite count_keys_set.
    destruct (in_dec string_dec k' (Dict.keys d)) as [Hin|Hn]; [assumption|].
    destruct (string_dec k' k) as [->|]; [|lia].
    apply (count_occ_not_In string_dec) in Hn. lia.
Qed.

(** Distinct keys assigned into an empty dictionary stay in the order of
    assignment. *)
Lemma update_nodup l d :
  NoDup (Dict.keys d ++ map fst l) -> Dict.update d l = d ++ l.
Proof.
  revert d. induction l as [|[k v] l IH]; simpl; intros d Hnd.
  - now rewrite app_nil_r.
  - rewrite update_cons.
    assert (Hk : ~ In k (Dict.keys d)).
    { apply NoDup_remove_2 in Hnd. intros Hin. apply Hnd.
      apply in_or_app. now left. }
    rewrite set_fresh by assumption. rewrite IH.
    + now rewrite <- app_assoc.
    + unfold Dict.keys in *. rewrite map_app. simpl.
      rewrite <- app_assoc. exact Hnd.
Qed.

End DictFacts.

(** ** The loop over the period cells *)

Lemma pair_ind (A : Type) (P : list A -> Prop) :
  P [] -> (forall x, P [x]) -> (forall x y l, P l -> P (x :: y :: l)) ->
  forall l, P l.
Proof.
  intros H0 H1 H2.
  assert (H : forall l, P l /\ forall x, P (x :: l)).
  { induction l as [|y l [IH1 IH2]]; split; auto. }
  intros l. apply H.
Qed.

Lemma getitem_app_r (A : Type) (pre l : list A) (i : nat) :
  getitem (pre ++ l) (List.length pre + i) = getitem l i.
Proof.
  unfold getitem. rewrite nth_error_app2 by lia.
  replace (List.length pre + i - List.length pre) with i by lia.
  reflexivity.
Qed.

(** The loop started at pair [a], with [2 * a] cells already consumed. *)
Lemma period_loop (data pre : list PageElement) (d : Dict.t string) (a : nat) :
  List.length pre = 2 * a ->
  for_ (map (fun j => 2 * j) (seq a (Nat.div2 (S (List.length data)))))
       (fun data_1 i =>
          let? value := getitem (pre ++ data) (i + 1) in
          let? info := getitem (pre ++ data) i in
          Return (Dict.set (cell_text info) (cell_text value) data_1))
       d
  = if Nat.even (List.length data)
    then Return (Dict.update d (pairwise data))
    else Raise IndexError.
Proof.
  revert pre d a. induction data as [|x|x y l IH] using pair_ind;
    intros pre d a Hpre.
  - reflexivity.
  - cbn [List.length Nat.div2 seq map for_ Nat.even].
    rewrite <- Hpre, getitem_app_r. reflexivity.
  - assert (E1 : getitem (pre ++ x :: y :: l) (2 * a + 1) = Return y).
    { rewrite <- Hpre, getitem_app_r. reflexivity. }
    assert (E0 : getitem (pre ++ x :: y :: l) (2 * a) = Return x).
    { rewrite <- Hpre. rewrite <- (Nat.add_0_r (List.length pre)).
      rewrite getitem_app_r. reflexivity. }
    change (Nat.div2 (S (List.length (x :: y :: l))))
      with (S (Nat.div2 (S (List.length l)))).
    change (Nat.even (List.length (x :: y :: l)))
      with (Nat.even (List.length l)).
    cbn [seq map for_ pairwise]. rewrite E1, E0. cbn [obind].
    rewrite update_cons.
    replace (pre ++ x :: y :: l) with ((pre ++ [x; y]) ++ l)
      by now rewrite <- app_assoc.
    apply IH. rewrite length_app. simpl. lia.
Qed.

Lemma performance_per_periods_spec (data : list PageElement) :
  performance_per_periods data =
  if Nat.even (List.length data)
  then Return (Dict.update Dict.empty (pairwise data))
  else Raise IndexError.
Proof.
  unfold performance_per_periods, range_step2.
  exact (@period_loop data [] Dict.empty 0 eq_refl).
Qed.

(** Where the pairs sit among the cells. *)
Lemma pairwise_nth (data : list PageElement) (i : nat) (info value : PageElement) :
  nth_error data (2 * i) = Some info ->
  nth_error data (2 * i + 1) = Some value ->
  nth_error (pairwise data) i = Some (cell_text info, cell_text value).
Proof.
  revert i. induction data as [|x|x y l IH] using pair_ind; intros i Hi Hv.
  - destruct i; discriminate.
  - destruct i as [|i]; [discriminate|].
    replace (2 * S i) with (S (S (2 * i))) in Hi by lia.
    simpl in Hi. destruct (i + (i + 0)); discriminate.
  - destruct i as [|i].
    + simpl in *. congruence.
    + replace (2 * S i) with (S (S (2 * i))) in Hi by lia.
      replace (2 * S i + 1) with (S (S (2 * i + 1))) in Hv by lia.
      simpl in Hi, Hv. simpl. apply IH; assumption.
Qed.

Lemma nth_pairwise (data : list PageElement) (i : nat) (k v : string) :
  nth_error (pairwise data) i = Some (k, v) ->
  exists info value,
    nth_error data (2 * i) = Some info /\
    nth_error data (2 * i + 1) = Some value /\
    cell_text info = k /\ cell_text value = v.
Proof.
  revert i. induction data as [|x|x y l IH] using pair_ind; intros i Hi.
  - destruct i; discriminate.
  - destruct i; discriminate.
  - destruct i as [|i].
    + simpl in Hi. injection Hi as <- <-. exists x, y. simpl. auto.
    + simpl in Hi. destruct (IH _ Hi) as (info & value & H1 & H2 & H3 & H4).
      exists info, value.
      replace (2 * S i) with (S (S (2 * i))) by lia.
      replace (S (S (2 * i)) + 1) with (S (S (2 * i + 1))) by lia.
      simpl. auto.
Qed.

(** An occurrence of a label that no later label repeats splits the pairs
    around it. *)
Lemma last_occurrence_split (data : list PageElement) (i : nat)
    (info value : PageElement) :
  nth_error data (2 * i) = Some info ->
  nth_error data (2 * i + 1) = Some value ->
  (forall j info', i < j -> nth_error data (2 * j) = Some info' ->
                   cell_text info' <> cell_text info) ->
  exists l1 l2,
    pairwise data = l1 ++ (cell_text info, cell_text value) :: l2 /\
    ~ In (cell_text info) (map fst l2).
Proof.
  intros Hi Hv Hlast.
  pose proof (pairwise_nth data i Hi Hv) as Hn.
  destruct (nth_error_split _ _ Hn) as (l1 & l2 & Heq & Hlen).
  exists l1, l2. split; [assumption|].
  intros Hin. apply in_map_iff in Hin. destruct Hin as ([k v] & Hk & Hin).
  simpl in Hk. subst k.
  apply In_nth_error in Hin. destruct Hin as [j Hj].
  assert (Hj' : nth_error (pairwise data) (S (i + j))
                = Some (cell_text info, v)).
  { rewrite Heq, nth_error_app2 by lia.
    replace (S (i + j) - List.length l1) with (S j) by lia. exact Hj. }
  destruct (nth_pairwise _ _ Hj') as (info' & _ & H1 & _ & H3 & _).
  apply (Hlast (S (i + j)) info'); [lia|assumption|assumption].
Qed.

(** ** The table of performers *)

(** The loop that collects the data rows, started with [pre] behind it. *)
Lemma stock_data_loop (l pre : list PageElement) (acc : list (list string)) :
  for_ (seq (List.length pre) (List.length l))
       (fun stock_data row =>
          let? r := getitem (pre ++ l) row in
          Return (stock_data ++ [row_cells r]))
       acc
  = Return (acc ++ map row_cells l).
Proof.
  revert pre acc. induction l as [|x l IH]; intros pre acc.
  - simpl. now rewrite app_nil_r.
  - assert (E : getitem (pre ++ x :: l) (List.length pre) = Return x).
    { rewrite <- (Nat.add_0_r (List.length pre)) at 1.
      rewrite getitem_app_r. reflexivity. }
    cbn [List.length seq for_]. rewrite E. cbn [obind].
    replace (pre ++ x :: l) with ((pre ++ [x]) ++ l)
      by now rewrite <- app_assoc.
    replace (S (List.length pre)) with (List.length (pre ++ [x]))
      by (rewrite length_app; simpl; lia).
    rewrite IH. cbn [map]. now rewrite <- app_assoc.
Qed.

(** [_stock_performers_ws] by the rows of its container. *)
Lemma _stock_performers_ws_rows (data : PageElement) :
  _stock_performers_ws data =
  match Bs4.find_all "tr" data with
  | [] => Return None
  | row0 :: rest =>
      let? data_df := Pd.DataFrame_ (map row_cells rest) (row_cells row0) in
      Return (Some data_df)
  end.
Proof.
  unfold _stock_performers_ws.
  destruct (Bs4.find_all "tr" data) as [|row0 rest]; [reflexivity|].
  cbn [List.length Nat.eqb getitem nth_error obind]. unfold range.
  replace (S (List.length rest) - 1) with (List.length rest) by lia.
  pose proof (stock_data_loop rest [row0] []) as L.
  cbn [List.length app] in L. rewrite L. reflexivity.
Qed.

Lemma width_le (data : list (list string)) (w : nat) :
  Forall (fun row => List.length row <= w) data -> Pd.width data <= w.
Proof.
  induction 1 as [|row data Hr _ IH]; simpl; [lia|].
  apply Nat.max_lub; assumption.
Qed.

Lemma width_ge (data : list (list string)) (row : list string) :
  In row data -> List.length row <= Pd.width data.
Proof.
  induction data as [|r data IH]; simpl; [tauto|].
  intros [->|Hin]; [apply Nat.le_max_l|].
  specialize (IH Hin). lia.
Qed.

Lemma width_lt (data : list (list string)) (w : nat) :
  0 < w -> Forall (fun row => List.length row < w) data -> Pd.width data < w.
Proof.
  intros Hw. induction 1 as [|row data Hr _ IH]; simpl; [assumption|].
  apply Nat.max_lub_lt; assumption.
Qed.

Lemma pad_full (w : nat) (row : list string) :
  List.length row = w -> Pd.pad w row = map Some row.
Proof.
  intros <-. unfold Pd.pad. rewrite Nat.sub_diag. apply app_nil_r.
Qed.

(** The fragments that make the cells of a row are never empty. *)
Lemma row_cells_nonempty (row : PageElement) :
  Forall (fun cell => cell <> EmptyString) (row_cells row).
Proof.
  unfold row_cells, Str.filter_None. apply Forall_forall.
  intros cell Hin. apply filter_In in Hin. destruct Hin as [_ Ht].
  now destruct cell.
Qed.

(** ** The scraper *)

(** One turn of the loop over the metrics, case by case. *)
Lemma locate_run (metric : string) (ws_dict : Dict.t (option PageElement))
    (w : world) :
  locate metric ws_dict w =
  match responses w (List.length (requested w)) with
  | None => (Raise ConnectionError, requested_once w)
  | Some soup =>
      match Bs4.find "div" (regex_search metric) soup with
      | None => (Raise TypeError, requested_once w)
      | Some tag =>
          if Bs4.len tag =? 0
          then (Return None, printed (changed_message metric) (requested_once w))
          else (Return (Some (Dict.set metric (Some tag) ws_dict)),
                requested_once w)
      end
  end.
Proof.
  unfold locate, bind, get_soup, lift, len, print, ret, requested_once, printed.
  destruct (responses w (List.length (requested w))) as [soup|]; [|reflexivity].
  destruct (Bs4.find "div" (regex_search metric) soup) as [tag|]; [|reflexivity].
  destruct (Bs4.len tag =? 0); reflexivity.
Qed.

Lemma _sp500_run (w : world) :
  _sp500 w =
  match locate_all [performance_by_period;
                    performance_top_stocks;
                    performance_bottom_stocks] Dict.empty w with
  | (Return None, w') => (Return None, w')
  | (Return (Some ws_dict), w') => (extract_all ws_dict, w')
  | (Raise e, w') => (Raise e, w')
  end.
Proof.
  unfold _sp500, bind at 1.
  destruct (locate_all _ _ w) as [[[ws_dict|]|e] w']; try reflexivity.
  unfold extract_all, bind, lift, ret.
  destruct (let? x := getkey ws_dict performance_by_period in as_tag x)
    as [c1|]; [|reflexivity]. cbn [obind].
  destruct (performance_per_periods _) as [data_1|]; [|reflexivity]. cbn [obind].
  destruct (let? x := getkey ws_dict performance_top_stocks in as_tag x)
    as [c2|]; [|reflexivity]. cbn [obind].
  destruct (_stock_performers_ws c2) as [data_2|]; [|reflexivity]. cbn [obind].
  destruct (let? x := getkey ws_dict performance_bottom_stocks in as_tag x)
    as [c3|]; [|reflexivity]. cbn [obind].
  destruct (_stock_performers_ws c3) as [data_3|]; reflexivity.
Qed.

(** The loop over the metrics: the requests it makes, what it prints and
    what it leaves in [ws_dict]. *)
Lemma locate_all_inv (metrics : list string) :
  forall (ws_dict : Dict.t (option PageElement)) (w w' : world)
         (r : outcome (option (Dict.t (option PageElement)))),
    locate_all metrics ws_dict w = (r, w') ->
    responses w' = responses w /\
    exists n,
      requested w' = requested w ++ repeat index_url n /\
      n <= List.length metrics /\
      (metrics <> [] -> 1 <= n) /\
      match r with
      | Return (Some ws_dict') =>
          let cs := containers (responses w) (List.length (requested w))
                               metrics in
          n = List.length metrics /\
          stdout w' = stdout w /\
          Forall located cs /\
          ws_dict' = Dict.update ws_dict (combine metrics cs)
      | Return None =>
          exists metric,
            In metric metrics /\
            stdout w' = stdout w ++ [changed_message metric]
      | Raise e => (e = TypeError \/ e = ConnectionError) /\ stdout w' = stdout w
      end.
Proof.
  induction metrics as [|metric rest IH]; intros ws_dict w w' r Hrun.
  - simpl in Hrun. unfold ret in Hrun. injection Hrun as <- <-.
    split; [reflexivity|]. exists 0. simpl. rewrite app_nil_r.
    repeat split; try lia; try congruence. constructor.
  - cbn [locate_all] in Hrun. unfold bind in Hrun. rewrite locate_run in Hrun.
    cbn [containers].
    destruct (responses w (List.length (requested w))) as [soup|].
    2:{ injection Hrun as <- <-. split; [reflexivity|]. exists 1. simpl.
        repeat split; try lia; auto. }
    destruct (Bs4.find "div" (regex_search metric) soup) as [tag|].
    2:{ injection Hrun as <- <-. split; [reflexivity|]. exists 1. simpl.
        repeat split; try lia; auto. }
    destruct (Bs4.len tag =? 0) eqn:Hlen.
    + unfold ret in Hrun. injection Hrun as <- <-.
      split; [reflexivity|]. exists 1. simpl.
      repeat split; try lia. exists metric. simpl. auto.
    + apply IH in Hrun. destruct Hrun as (Hresp & n & Hreq & Hn & _ & Hr).
      split; [exact Hresp|]. exists (S n).
      assert (Hlen' : List.length (requested (requested_once w))
                      = S (List.length (requested w))).
      { simpl. rewrite length_app. simpl. lia. }
      repeat split.
      * rewrite Hreq. simpl. now rewrite <- app_assoc.
      * simpl. lia.
      * lia.
      * destruct r as [[ws_dict'|]|e].
        -- rewrite Hlen' in Hr. simpl in Hr.
           destruct Hr as (-> & Hout & Hcs & ->).
           repeat split; auto.
           constructor; [|assumption].
           exists tag. split; [reflexivity|]. now apply Nat.eqb_neq.
        -- destruct Hr as (m & Hin & Hout). exists m. simpl. auto.
        -- exact Hr.
Qed.

Lemma extract_all_located (c1 c2 c3 : PageElement) :
  extract_all [(performance_by_period, Some c1);
               (performance_top_stocks, Some c2);
               (performance_bottom_stocks, Some c3)] =
  let? data_1 := performance_per_periods (Bs4.find_all "td" c1) in
  let? data_2 := _stock_performers_ws c2 in
  let? data_3 := _stock_performers_ws c3 in
  Return (Some [(performance_by_period, PyDict data_1);
                (performance_top_stocks, of_optional data_2);
                (performance_bottom_stocks, of_optional data_3)]).
Proof. reflexivity. Qed.

(** [_stock_performers_ws] returns [None] exactly on a container without
    rows, and the only exception it raises is the ValueError of pandas. *)
Lemma _stock_performers_ws_cases (data : PageElement) :
  (exists o, _stock_performers_ws data = Return o /\
             (o = None <-> Bs4.find_all "tr" data = [])) \/
  _stock_performers_ws data = Raise ValueError.
Proof.
  rewrite _stock_performers_ws_rows.
  destruct (Bs4.find_all "tr" data) as [|row0 rest].
  - left. exists None. tauto.
  - unfold Pd.DataFrame_. destruct (map row_cells rest) as [|r rs].
    + left. eexists. split; [reflexivity|]. split; discriminate.
    + destruct (List.length (row_cells row0) =? Pd.width (r :: rs)).
      * left. eexists. split; [reflexivity|]. split; discriminate.
      * now right.
Qed.

Lemma performance_per_periods_cases (data : list PageElement) :
  (exists data_1, performance_per_periods data = Return data_1) \/
  performance_per_periods data = Raise IndexError.
Proof.
  rewrite performance_per_periods_spec.
  destruct (Nat.even (List.length data)); eauto.
Qed.

(* ===================================================================== *)
(** * The claims *)
(* ===================================================================== *)

(** C1, as the spec states it, fails: on a page whose gainers block has
    contents but no table row, [_sp500] returns a bundle whose gainers slot
    holds [None] while the two other slots hold data. *)
Lemma C1_partial_bundle :
  fst (_sp500 (Sample.serving Sample.page_no_gainer_rows)) =
  Return (Some [("performance",
                 PyDict [("1 Day", "+1.2%"); ("1 Year", "+15.0%")]);
                ("ByIndexGainers", PyNone);
                ("ByIndexDecliners",
                 PyDataFrame {| Pd.columns := ["Name"; "Last"];
                                Pd.values := [[Some "CCC"; Some "2.0"]] |})]).
Proof. vm_compute. reflexivity. Qed.

(** C1 (amended): every call of [_sp500] ends in one of three ways.  It
    raises one of ConnectionError, TypeError, IndexError, ValueError; or it
    returns [None], having printed the message that names one of the three
    metrics; or it returns a dictionary with exactly the three metric keys,
    where the period slot holds the mapping parsed from the first container
    and each performer slot holds what [_stock_performers_ws] returned for
    its container: a table, or [None] exactly when that container has no
    row.  The three containers are looked up in the pages of three
    successive requests. *)
Theorem C1_scrape_outcomes (w : world) :
  (exists e, fst (_sp500 w) = Raise e /\
             In e [ConnectionError; TypeError; IndexError; ValueError]) \/
  (fst (_sp500 w) = Return None /\
   exists metric,
     In metric [performance_by_period; performance_top_stocks;
                performance_bottom_stocks] /\
     stdout (snd (_sp500 w)) = stdout w ++ [changed_message metric]) \/
  (exists c1 c2 c3 data_1 data_2 data_3,
     containers (responses w) (List.length (requested w))
                [performance_by_period; performance_top_stocks;
                 performance_bottom_stocks]
     = [Some c1; Some c2; Some c3] /\
     performance_per_periods (Bs4.find_all "td" c1) = Return data_1 /\
     _stock_performers_ws c2 = Return data_2 /\
     _stock_performers_ws c3 = Return data_3 /\
     (data_2 = None <-> Bs4.find_all "tr" c2 = []) /\
     (data_3 = None <-> Bs4.find_all "tr" c3 = []) /\
     fst (_sp500 w) =
     Return (Some [(performance_by_period, PyDict data_1);
                   (performance_top_stocks, of_optional data_2);
                   (performance_bottom_stocks, of_optional data_3)])).
Proof.
  rewrite _sp500_run.
  destruct (locate_all _ _ w) as [r w'] eqn:Hrun.
  apply locate_all_inv in Hrun.
  destruct Hrun as (_ & n & _ & _ & _ & Hr).
  destruct r as [[ws_dict|]|e]; cbn [fst snd].
  - destruct Hr as (_ & _ & Hcs & ->). cbn [containers] in *.
    inversion Hcs as [|x1 l1 (c1 & E1 & _) Hcs1]; subst x1 l1.
    inversion Hcs1 as [|x2 l2 (c2 & E2 & _) Hcs2]; subst x2 l2.
    inversion Hcs2 as [|x3 l3 (c3 & E3 & _) _]; subst x3 l3.
    rewrite E1, E2, E3.
    change (Dict.update Dict.empty
              (combine [performance_by_period; performance_top_stocks;
                        performance_bottom_stocks]
                       [Some c1; Some c2; Some c3]))
      with [(performance_by_period, Some c1);
            (performance_top_stocks, Some c2);
            (performance_bottom_stocks, Some c3)].
    rewrite extract_all_located.
    destruct (performance_per_periods_cases (Bs4.find_all "td" c1))
      as [[data_1 H1]|H1]; rewrite H1; cbn [obind].
    2:{ left. exists IndexError. split; [reflexivity|simpl; tauto]. }
    destruct (_stock_performers_ws_cases c2) as [(data_2 & H2 & N2)|H2];
      rewrite H2; cbn [obind].
    2:{ left. exists ValueError. split; [reflexivity|simpl; tauto]. }
    destruct (_stock_performers_ws_cases c3) as [(data_3 & H3 & N3)|H3];
      rewrite H3; cbn [obind].
    2:{ left. exists ValueError. split; [reflexivity|simpl; tauto]. }
    right. right. exists c1, c2, c3, data_1, data_2, data_3. auto 10.
  - right. left. split; [reflexivity|]. exact Hr.
  - left. exists e. split; [reflexivity|].
    destruct Hr as [[->| ->] _]; simpl; tauto.
Qed.

(** C2, as the spec states it, fails: on no cell at all the loop returns
    the empty mapping, and on a single cell it raises IndexError; neither is
    the failure value [None] that the module uses for a page that changed. *)
Lemma C2_no_failure_value :
  performance_per_periods [] = Return Dict.empty /\
  performance_per_periods [Sample.td "1 Day"] = Raise IndexError.
Proof. split; reflexivity. Qed.

(** C2 (amended): on a cell sequence of odd length the period loop raises
    IndexError, and on the empty sequence it returns the empty mapping. *)
Theorem C2_odd_or_zero_cells (data : list PageElement) :
  (Nat.odd (List.length data) = true ->
   performance_per_periods data = Raise IndexError) /\
  (List.length data = 0 ->
   performance_per_periods data = Return Dict.empty).
Proof.
  rewrite performance_per_periods_spec. split.
  - unfold Nat.odd. intros H. apply negb_true_iff in H. now rewrite H.
  - intros H. apply length_zero_iff_nil in H. now subst.
Qed.

(** Three cells, and no cell. *)
Lemma C2_odd_or_zero_cells_witness :
  performance_per_periods
    [Sample.td "1 Day"; Sample.td "+1.2%"; Sample.td "1 Year"]
  = Raise IndexError /\
  performance_per_periods [] = Return Dict.empty.
Proof.
  split.
  - apply (proj1 (C2_odd_or_zero_cells
                    [Sample.td "1 Day"; Sample.td "+1.2%"; Sample.td "1 Year"])).
    reflexivity.
  - apply (proj2 (C2_odd_or_zero_cells [])). reflexivity.
Defined.

(** C8: when a label occurs more than once among the even-indexed cells of
    an even-length sequence, the resulting mapping binds it to the text of
    the cell that follows its last occurrence, and holds the label as a key
    once.  The cells "X", "1", "X", "2" give {"X": "2"}. *)
Theorem C8_last_write_wins :
  (forall (data : list PageElement) (i : nat) (info value : PageElement),
     Nat.even (List.length data) = true ->
     nth_error data (2 * i) = Some info ->
     nth_error data (2 * i + 1) = Some value ->
     (forall j info', i < j -> nth_error data (2 * j) = Some info' ->
                      cell_text info' <> cell_text info) ->
     exists data_1,
       performance_per_periods data = Return data_1 /\
       Dict.get (cell_text info) data_1 = Some (cell_text value) /\
       count_occ string_dec (Dict.keys data_1) (cell_text info) = 1) /\
  performance_per_periods
    [Sample.td "X"; Sample.td "1"; Sample.td "X"; Sample.td "2"]
  = Return [("X", "2")].
Proof.
  split; [|reflexivity].
  intros data i info value Heven Hi Hv Hlast.
  rewrite performance_per_periods_spec, Heven.
  eexists. split; [reflexivity|].
  destruct (@last_occurrence_split data i info value Hi Hv Hlast)
    as (l1 & l2 & Heq & Hn).
  assert (Hget : Dict.get (cell_text info) (Dict.update Dict.empty (pairwise data))
                 = Some (cell_text value)).
  { rewrite Heq. now apply get_update_last. }
  split; [exact Hget|].
  pose proof (count_keys_update (pairwise data) Dict.empty (cell_text info))
    as Hle.
  assert (Hin : In (cell_text info)
                   (Dict.keys (Dict.update Dict.empty (pairwise data)))).
  { apply in_keys_update. right. rewrite Heq, map_app. apply in_or_app.
    right. now left. }
  apply (count_occ_In string_dec) in Hin.
  specialize (Hle (Nat.le_0_l _)). lia.
Qed.

(** The label [X] at pairs 0 and 2, another label between them. *)
Lemma C8_last_write_wins_witness :
  exists data_1,
    performance_per_periods
      [Sample.td "X"; Sample.td "1"; Sample.td "Y"; Sample.td "5";
       Sample.td "X"; Sample.td "2"] = Return data_1 /\
    Dict.get "X" data_1 = Some "2" /\
    count_occ string_dec (Dict.keys data_1) "X" = 1.
Proof.
  apply (proj1 C8_last_write_wins
           [Sample.td "X"; Sample.td "1"; Sample.td "Y"; Sample.td "5";
            Sample.td "X"; Sample.td "2"]
           2 (Sample.td "X") (Sample.td "2")); try reflexivity.
  intros [|[|[|j]]] info' Hj Hn; try lia.
  replace (2 * S (S (S j))) with (6 + 2 * j) in Hn by lia.
  simpl in Hn. destruct (j + (j + 0)); discriminate.
Defined.

Lemma find_none_of (A : Type) (f : A -> bool) (l : list A) :
  (forall x, In x l -> f x = false) -> List.find f l = None.
Proof.
  induction l as [|x l IH]; simpl; intros H; [reflexivity|].
  rewrite (H x) by now left. apply IH. intros y Hy. apply H. now right.
Qed.

(** C3: the spec asks for a failure that names the metric when no element of
    the document has a matching class.  The code does not do that: [find]
    gives [None], the check [len(ws_metric) == 0] raises TypeError on it, and
    the message that names the metric is never printed.  For every such
    document the turn of the loop ends in TypeError after its request, with
    nothing printed; met at the first metric, the whole of [_sp500] does. *)
Theorem C3_missing_container_raises_TypeError
    (w : world) (soup : PageElement) (metric : string)
    (ws_dict : Dict.t (option PageElement)) :
  In metric [performance_by_period; performance_top_stocks;
             performance_bottom_stocks] ->
  responses w (List.length (requested w)) = Some soup ->
  (forall e, In e (Bs4.descendants soup) ->
             Bs4.class_matches (regex_search metric) e = false) ->
  locate metric ws_dict w = (Raise TypeError, requested_once w) /\
  stdout (snd (locate metric ws_dict w)) = stdout w /\
  (metric = performance_by_period ->
   _sp500 w = (Raise TypeError, requested_once w)).
Proof.
  intros _ Hresp Hnone.
  assert (Hfind : Bs4.find "div" (regex_search metric) soup = None).
  { unfold Bs4.find. apply find_none_of. intros e He.
    rewrite (Hnone e He). apply andb_false_r. }
  assert (Hloc : locate metric ws_dict w = (Raise TypeError, requested_once w)).
  { now rewrite locate_run, Hresp, Hfind. }
  split; [exact Hloc|]. split; [now rewrite Hloc|].
  intros ->. rewrite _sp500_run. cbn [locate_all]. unfold bind at 1.
  rewrite locate_run, Hresp, Hfind. reflexivity.
Qed.

(** A page that holds the two performer blocks and no period block. *)
Lemma C3_missing_container_raises_TypeError_witness :
  _sp500 (Sample.serving (Sample.document [Sample.gainers; Sample.decliners]))
  = (Raise TypeError,
     requested_once
       (Sample.serving (Sample.document [Sample.gainers; Sample.decliners]))).
Proof.
  refine (proj2 (proj2 (@C3_missing_container_raises_TypeError
            (Sample.serving (Sample.document [Sample.gainers; Sample.decliners]))
            (Sample.document [Sample.gainers; Sample.decliners])
            performance_by_period Dict.empty (or_introl eq_refl) eq_refl _))
          eq_refl).
  intros e He. vm_compute in He.
  repeat (destruct He as [<-|He]; [reflexivity|]). destruct He.
Defined.

(** C4, as the spec states it, fails: a call that finds its three blocks
    has requested the page three times; and the document is not shared
    between the lookups, since a site that serves the full page at the
    first request and an empty one afterwards makes the second lookup
    fail. *)
Lemma C4_three_requests :
  requested (snd (_sp500 (Sample.serving Sample.page)))
  = [index_url; index_url; index_url] /\
  _sp500 {| responses := fun n => match n with
                                  | 0 => Some Sample.page
                                  | _ => Some (Sample.document [])
                                  end;
            requested := []; stdout := [] |}
  = (Raise TypeError,
     {| responses := fun n => match n with
                              | 0 => Some Sample.page
                              | _ => Some (Sample.document [])
                              end;
        requested := [index_url; index_url]; stdout := [] |}).
Proof. split; reflexivity. Qed.

(** C4 (amended): [_sp500] requests the page once for every metric it looks
    up, each lookup parsing the page afresh: a call makes between one and
    three GETs of the index URL, and three whenever the loop over the metrics
    runs to its end, as in every call that returns a bundle. *)
Theorem C4_one_request_per_metric (w : world) :
  exists n,
    requested (snd (_sp500 w)) = requested w ++ repeat index_url n /\
    1 <= n <= 3 /\
    (n = 3 \/ fst (_sp500 w) = Return None \/
     fst (_sp500 w) = Raise TypeError \/
     fst (_sp500 w) = Raise ConnectionError) /\
    (forall bundle, fst (_sp500 w) = Return (Some bundle) -> n = 3).
Proof.
  rewrite _sp500_run.
  destruct (locate_all _ _ w) as [r w'] eqn:Hrun.
  apply locate_all_inv in Hrun.
  destruct Hrun as (_ & n & Hreq & Hn & H1 & Hr).
  exists n. simpl in Hn.
  assert (1 <= n) by (apply H1; discriminate).
  destruct r as [[ws_dict|]|e]; cbn [fst snd].
  - destruct Hr as (-> & _). simpl. repeat split; auto; lia.
  - repeat split; auto; try lia. discriminate.
  - destruct Hr as [[-> | ->] _]; repeat split; auto; try lia; discriminate.
Qed.

(** C7: a container in which [find_all("tr")] finds no row makes
    [_stock_performers_ws] return [None], the failure value, and no table. *)
Theorem C7_zero_rows (data : PageElement) :
  Bs4.find_all "tr" data = [] ->
  _stock_performers_ws data = Return None.
Proof.
  intros H. now rewrite _stock_performers_ws_rows, H.
Qed.

(** A block that holds a note and no table. *)
Lemma C7_zero_rows_witness :
  _stock_performers_ws
    (Sample.block performance_top_stocks [NavigableString "No data"])
  = Return None.
Proof.
  apply (@C7_zero_rows
           (Sample.block performance_top_stocks [NavigableString "No data"])).
  reflexivity.
Defined.

Lemma width_uniform (data : list (list string)) (N : nat) :
  data <> [] -> Forall (fun row => List.length row = N) data ->
  Pd.width data = N.
Proof.
  intros Hne Hall. apply Nat.le_antisymm.
  - apply width_le. eapply Forall_impl; [|exact Hall]. simpl. lia.
  - destruct data as [|row data]; [congruence|].
    inversion Hall as [|? ? Hrow _]; subst.
    apply (@width_ge (row :: data) row). now left.
Qed.

(** C5: when row 0 of a container yields [N] non-empty fragments and each
    of the [k] rows after it yields [N], [_stock_performers_ws] returns a
    table whose header has length [N] and which has exactly [k] data rows,
    each of length [N].  The header and the rows are the fragments of the
    row texts split at line breaks with the empty fragments dropped: no name
    and no cell is empty or missing. *)
Theorem C5_regular_table
    (data row0 : PageElement) (rest : list PageElement) (N : nat) :
  Bs4.find_all "tr" data = row0 :: rest ->
  List.length (Str.filter_None (Str.split_nl (Bs4.text row0))) = N ->
  Forall (fun row =>
            List.length (Str.filter_None (Str.split_nl (Bs4.text row))) = N)
         rest ->
  exists df,
    _stock_performers_ws data = Return (Some df) /\
    List.length (Pd.columns df) = N /\
    List.length (Pd.values df) = List.length rest /\
    Forall (fun cells => List.length cells = N) (Pd.values df) /\
    Pd.columns df = Str.filter_None (Str.split_nl (Bs4.text row0)) /\
    Pd.values df =
      map (fun row => map Some (Str.filter_None (Str.split_nl (Bs4.text row))))
          rest /\
    Forall (fun name => name <> EmptyString) (Pd.columns df) /\
    Forall (Forall (fun cell => cell <> None /\ cell <> Some EmptyString))
           (Pd.values df).
Proof.
  intros Hrows H0 Hrest.
  fold (row_cells row0) in *.
  assert (Hrest' : Forall (fun cells => List.length cells = N)
                          (map row_cells rest)).
  { apply Forall_map. exact Hrest. }
  assert (Hdf : Pd.DataFrame_ (map row_cells rest) (row_cells row0)
                = Return {| Pd.columns := row_cells row0;
                            Pd.values := map (fun row => map Some (row_cells row))
                                             rest |}).
  { unfold Pd.DataFrame_.
    destruct (map row_cells rest) as [|r rs] eqn:E.
    - destruct rest; [reflexivity|discriminate].
    - rewrite (@width_uniform (r :: rs) N) by (assumption || discriminate).
      rewrite H0, Nat.eqb_refl. rewrite <- E, map_map. do 2 f_equal.
      apply map_ext_in. intros row Hin. apply pad_full.
      rewrite Forall_forall in Hrest. now apply Hrest. }
  rewrite _stock_performers_ws_rows, Hrows, Hdf. cbn [obind].
  eexists. split; [reflexivity|]. cbn [Pd.columns Pd.values].
  repeat split.
  - exact H0.
  - apply length_map.
  - apply Forall_map. eapply Forall_impl; [|exact Hrest].
    intros row Hrow. now rewrite length_map.
  - apply row_cells_nonempty.
  - apply Forall_map. apply Forall_forall. intros row _.
    apply Forall_map. eapply Forall_impl; [|apply row_cells_nonempty].
    intros cell Hcell. split; congruence.
Qed.

(** The gainers block of the sample page: a header and two rows of two
    cells. *)
Lemma C5_regular_table_witness :
  exists df,
    _stock_performers_ws Sample.gainers = Return (Some df) /\
    List.length (Pd.columns df) = 2 /\
    List.length (Pd.values df) = 2 /\
    Forall (fun cells => List.length cells = 2) (Pd.values df) /\
    Pd.columns df = ["Name"; "Last"] /\
    Pd.values df = [[Some "AAA"; Some "1.0"]; [Some "BBB"; Some "3.5"]] /\
    Forall (fun name => name <> EmptyString) (Pd.columns df) /\
    Forall (Forall (fun cell => cell <> None /\ cell <> Some EmptyString))
           (Pd.values df).
Proof.
  apply (@C5_regular_table Sample.gainers
           (Sample.tr ["Name"; "Last"])
           [Sample.tr ["AAA"; "1.0"]; Sample.tr ["BBB"; "3.5"]] 2).
  - reflexivity.
  - reflexivity.
  - repeat constructor.
Defined.

(** C10, as stated, fails: with the header "Name", "Last" and one data row
    of the single cell "AAA", shorter than the header, the row is not padded:
    no table comes back, the DataFrame constructor raises ValueError. *)
Lemma C10_short_rows_not_padded :
  Bs4.find_all "tr"
    (Sample.block performance_top_stocks
       [Sample.tr ["Name"; "Last"]; Sample.tr ["AAA"]])
  = [Sample.tr ["Name"; "Last"]; Sample.tr ["AAA"]] /\
  row_cells (Sample.tr ["Name"; "Last"]) = ["Name"; "Last"] /\
  row_cells (Sample.tr ["AAA"]) = ["AAA"] /\
  _stock_performers_ws
    (Sample.block performance_top_stocks
       [Sample.tr ["Name"; "Last"]; Sample.tr ["AAA"]])
  = Raise ValueError.
Proof. repeat split; reflexivity. Qed.

(** C10 (amended): under a non-empty header, the table is built without a
    check of the row widths, so the DataFrame constructor decides.  When no
    data row is wider than the
    header and at least one is as wide, a table comes back in which every
    shorter row is filled with null cells up to the header's width.  When
    some data row is wider than the header, or when there are data rows and
    all of them are shorter than the header, the call raises ValueError; it
    does not return the failure value. *)
Theorem C10_row_width_policy
    (data row0 : PageElement) (rest : list PageElement) :
  Bs4.find_all "tr" data = row0 :: rest ->
  row_cells row0 <> [] ->
  (Forall (fun row => List.length (row_cells row)
                      <= List.length (row_cells row0)) rest ->
   Exists (fun row => List.length (row_cells row)
                      = List.length (row_cells row0)) rest ->
   _stock_performers_ws data =
   Return (Some {| Pd.columns := row_cells row0;
                   Pd.values :=
                     map (fun row =>
                            map Some (row_cells row) ++
                            repeat None (List.length (row_cells row0)
                                         - List.length (row_cells row)))
                         rest |})) /\
  (Exists (fun row => List.length (row_cells row0)
                      < List.length (row_cells row)) rest ->
   _stock_performers_ws data = Raise ValueError) /\
  (rest <> [] ->
   Forall (fun row => List.length (row_cells row)
                      < List.length (row_cells row0)) rest ->
   _stock_performers_ws data = Raise ValueError).
Proof.
  intros Hrows _. rewrite _stock_performers_ws_rows, Hrows.
  unfold Pd.DataFrame_. split; [|split].
  - intros Hall Hex.
    assert (Hw : Pd.width (map row_cells rest) = List.length (row_cells row0)).
    { apply Nat.le_antisymm.
      - apply width_le, Forall_map. exact Hall.
      - apply Exists_exists in Hex. destruct Hex as (row & Hin & <-).
        apply width_ge. now apply in_map. }
    destruct (map row_cells rest) as [|r rs] eqn:E.
    + destruct rest; [|discriminate]. inversion Hex.
    + rewrite Hw, Nat.eqb_refl. rewrite <- E, map_map. reflexivity.
  - intros Hex. apply Exists_exists in Hex. destruct Hex as (row & Hin & Hlt).
    pose proof (@width_ge (map row_cells rest) (row_cells row)
                  (in_map row_cells _ _ Hin)) as Hge.
    destruct (map row_cells rest) as [|r rs] eqn:E.
    + destruct rest; [destruct Hin|discriminate].
    + destruct (Nat.eqb_spec (List.length (row_cells row0))
                             (Pd.width (r :: rs))); [lia|reflexivity].
  - intros Hne Hall.
    destruct rest as [|row rest']; [congruence|].
    assert (Hpos : 0 < List.length (row_cells row0)).
    { inversion Hall; subst. lia. }
    pose proof (@width_lt (map row_cells (row :: rest')) _ Hpos
                  (proj2 (Forall_map _ _ _) Hall)) as Hlt.
    cbn [map] in *.
    destruct (Nat.eqb_spec (List.length (row_cells row0))
                           (Pd.width (row_cells row :: map row_cells rest')));
      [lia|reflexivity].
Qed.

(** A short row next to a full one; a row wider than the header; short
    rows only. *)
Lemma C10_row_width_policy_witness :
  _stock_performers_ws
    (Sample.block performance_top_stocks
       [Sample.tr ["Name"; "Last"]; Sample.tr ["AAA"; "1.0"]; Sample.tr ["BBB"]])
  = Return (Some {| Pd.columns := ["Name"; "Last"];
                    Pd.values := [[Some "AAA"; Some "1.0"];
                                  [Some "BBB"; None]] |}) /\
  _stock_performers_ws
    (Sample.block performance_top_stocks
       [Sample.tr ["Name"; "Last"]; Sample.tr ["AAA"; "1.0"; "+2%"]])
  = Raise ValueError /\
  _stock_performers_ws
    (Sample.block performance_top_stocks
       [Sample.tr ["Name"; "Last"]; Sample.tr ["AAA"]; Sample.tr ["BBB"]])
  = Raise ValueError.
Proof.
  split; [|split].
  - apply (proj1 (@C10_row_width_policy
                    (Sample.block performance_top_stocks
                       [Sample.tr ["Name"; "Last"]; Sample.tr ["AAA"; "1.0"];
                        Sample.tr ["BBB"]])
                    (Sample.tr ["Name"; "Last"])
                    [Sample.tr ["AAA"; "1.0"]; Sample.tr ["BBB"]] eq_refl
                    ltac:(discriminate))).
    + repeat constructor.
    + apply Exists_cons_hd. reflexivity.
  - apply (proj1 (proj2 (@C10_row_width_policy
                    (Sample.block performance_top_stocks
                       [Sample.tr ["Name"; "Last"];
                        Sample.tr ["AAA"; "1.0"; "+2%"]])
                    (Sample.tr ["Name"; "Last"])
                    [Sample.tr ["AAA"; "1.0"; "+2%"]] eq_refl
                    ltac:(discriminate)))).
    apply Exists_cons_hd. vm_compute. lia.
  - apply (proj2 (proj2 (@C10_row_width_policy
                    (Sample.block performance_top_stocks
                       [Sample.tr ["Name"; "Last"]; Sample.tr ["AAA"];
                        Sample.tr ["BBB"]])
                    (Sample.tr ["Name"; "Last"])
                    [Sample.tr ["AAA"]; Sample.tr ["BBB"]] eq_refl
                    ltac:(discriminate)))).
    + discriminate.
    + repeat constructor.
Defined.

(** C9: an identifier of ASCII characters whose upper-cased form is not in
    [AVAILABLE_INDEX] makes the constructor raise its [Warning] at once: the
    world is left as it was, so nothing was requested (and nothing printed)
    before the failure, whatever the reference data holds. *)
Theorem C9_unsupported_index
    (stock_market_data : string -> option Pd.DataFrame)
    (index : string) (w : world) :
  Str.is_ascii index = true ->
  Str.mem (Str.upper index) AVAILABLE_INDEX = false ->
  IndexView.__init__ stock_market_data index w = (Raise Warning, w).
Proof.
  intros _ H. unfold IndexView.__init__. rewrite H. reflexivity.
Qed.

(** An index that the module does not know. *)
Lemma C9_unsupported_index_witness :
  IndexView.__init__ (fun _ => None) "nasdaq" (Sample.serving Sample.page)
  = (Raise Warning, Sample.serving Sample.page).
Proof.
  apply (@C9_unsupported_index (fun _ => None) "nasdaq"
           (Sample.serving Sample.page)); reflexivity.
Defined.


Lemma init_leaves_world
    (stock_market_data : string -> option Pd.DataFrame)
    (index : string) (w : world) :
  snd (IndexView.__init__ stock_market_data index w) = w.
Proof.
  unfold IndexView.__init__.
  destruct (Str.mem (Str.upper index) AVAILABLE_INDEX); [|reflexivity].
  unfold bind, lift, ret. cbn [negb].
  destruct (stock_market_data (Str.upper index)) as [df|]; [|reflexivity].
  simpl. destruct (IndexView.column df "Sector"); reflexivity.
Qed.

(* ===================================================================== *)
(** * Further properties of the module *)
(* ===================================================================== *)

(** ** [_stock_performers_ws] *)

Lemma length_pad (w : nat) (row : list string) :
  List.length row <= w -> List.length (Pd.pad w row) = w.
Proof.
  intros H. unfold Pd.pad. rewrite length_app, length_map, repeat_length. lia.
Qed.

(** What the DataFrame constructor returns, when it returns. *)
Lemma DataFrame_returns (data : list (list string)) (cols : list string)
    (df : Pd.DataFrame) :
  Pd.DataFrame_ data cols = Return df ->
  Pd.columns df = cols /\
  Pd.values df = map (Pd.pad (List.length cols)) data /\
  Forall (fun row => List.length row <= List.length cols) data.
Proof.
  unfold Pd.DataFrame_. destruct data as [|r rs].
  - intros [= <-]. simpl. auto.
  - destruct (Nat.eqb_spec (List.length cols) (Pd.width (r :: rs))) as [E|];
      [|discriminate].
    intros [= <-]. cbn [Pd.columns Pd.values].
    split; [reflexivity|]. split; [now rewrite E|].
    apply Forall_forall. intros row Hin.
    rewrite E. now apply width_ge.
Qed.

(** X1: a table that [_stock_performers_ws] returns is rectangular: every
    one of its rows has as many cells as the header has names. *)
Theorem X1_table_rectangular (data : PageElement) (df : Pd.DataFrame) :
  _stock_performers_ws data = Return (Some df) ->
  Forall (fun cells => List.length cells = List.length (Pd.columns df))
         (Pd.values df).
Proof.
  rewrite _stock_performers_ws_rows.
  destruct (Bs4.find_all "tr" data) as [|row0 rest]; [discriminate|].
  destruct (Pd.DataFrame_ (map row_cells rest) (row_cells row0)) as [df'|]
    eqn:Hdf; [|discriminate].
  intros [= <-]. apply DataFrame_returns in Hdf.
  destruct Hdf as (-> & -> & Hle).
  apply Forall_map. eapply Forall_impl; [|exact Hle].
  intros row Hrow. now apply length_pad.
Qed.

(** The frame of the sample page's gainers block. *)
Lemma X1_table_rectangular_witness :
  Forall (fun cells => List.length cells = 2)
         [[Some "AAA"; Some "1.0"]; [Some "BBB"; Some "3.5"]].
Proof.
  exact (@X1_table_rectangular Sample.gainers
           {| Pd.columns := ["Name"; "Last"];
              Pd.values := [[Some "AAA"; Some "1.0"];
                            [Some "BBB"; Some "3.5"]] |} eq_refl).
Defined.

(** X2: a table that [_stock_performers_ws] returns holds the rows of the
    container in their order: its names are the fragments of the first row,
    it has one row for each row after the first, and each of its rows is the
    fragments of that row, in order, followed by null cells only. *)
Theorem X2_table_contents (data : PageElement) (df : Pd.DataFrame) :
  _stock_performers_ws data = Return (Some df) ->
  exists row0 rest,
    Bs4.find_all "tr" data = row0 :: rest /\
    Pd.columns df = row_cells row0 /\
    List.length (Pd.values df) = List.length rest /\
    forall i row,
      nth_error rest i = Some row ->
      List.length (row_cells row) <= List.length (row_cells row0) /\
      nth_error (Pd.values df) i =
      Some (map Some (row_cells row) ++
            repeat None (List.length (row_cells row0)
                         - List.length (row_cells row))).
Proof.
  rewrite _stock_performers_ws_rows.
  destruct (Bs4.find_all "tr" data) as [|row0 rest]; [discriminate|].
  destruct (Pd.DataFrame_ (map row_cells rest) (row_cells row0)) as [df'|]
    eqn:Hdf; [|discriminate].
  intros [= <-]. apply DataFrame_returns in Hdf.
  destruct Hdf as (Hc & Hv & Hle).
  exists row0, rest. split; [reflexivity|]. split; [exact Hc|].
  split; [now rewrite Hv, !length_map|].
  intros i row Hi. split.
  - rewrite Forall_forall in Hle. apply Hle.
    apply in_map. eapply nth_error_In; eassumption.
  - rewrite Hv, map_map. now rewrite nth_error_map, Hi.
Qed.

(** A short row next to a full one. *)
Lemma X2_table_contents_witness :
  exists row0 rest,
    Bs4.find_all "tr"
      (Sample.block performance_top_stocks
         [Sample.tr ["Name"; "Last"]; Sample.tr ["AAA"; "1.0"];
          Sample.tr ["BBB"]]) = row0 :: rest /\
    ["Name"; "Last"] = row_cells row0 /\
    2 = List.length rest /\
    forall i row,
      nth_error rest i = Some row ->
      List.length (row_cells row) <= List.length (row_cells row0) /\
      nth_error [[Some "AAA"; Some "1.0"]; [Some "BBB"; None]] i =
      Some (map Some (row_cells row) ++
            repeat None (List.length (row_cells row0)
                         - List.length (row_cells row))).
Proof.
  exact (@X2_table_contents
           (Sample.block performance_top_stocks
              [Sample.tr ["Name"; "Last"]; Sample.tr ["AAA"; "1.0"];
               Sample.tr ["BBB"]])
           {| Pd.columns := ["Name"; "Last"];
              Pd.values := [[Some "AAA"; Some "1.0"]; [Some "BBB"; None]] |}
           eq_refl).
Defined.

(** X3: the only exception of [_stock_performers_ws] is ValueError, and it
    is raised exactly when the container has data rows and the widest of them
    has another number of fragments than the first row; indexing the rows
    never fails. *)
Theorem X3_table_raises_iff (data : PageElement) (e : exn) :
  _stock_performers_ws data = Raise e <->
  e = ValueError /\
  exists row0 rest,
    Bs4.find_all "tr" data = row0 :: rest /\
    rest <> [] /\
    Pd.width (map row_cells rest) <> List.length (row_cells row0).
Proof.
  rewrite _stock_performers_ws_rows.
  destruct (Bs4.find_all "tr" data) as [|row0 rest].
  - split; [discriminate|]. intros (_ & r0 & rs & H & _). discriminate.
  - unfold Pd.DataFrame_. destruct rest as [|row rest'].
    + simpl. split; [discriminate|].
      intros (_ & r0 & rs & [= <- <-] & Hne & _). congruence.
    + cbn [map].
      destruct (Nat.eqb_spec (List.length (row_cells row0))
                  (Pd.width (row_cells row :: map row_cells rest')))
        as [E|NE]; cbn [obind].
      * split; [discriminate|].
        intros (_ & r0 & rs & [= <- <-] & _ & Hw). cbn [map] in Hw. congruence.
      * split.
        -- intros [= <-]. split; [reflexivity|].
           exists row0, (row :: rest'). repeat split; [discriminate|].
           cbn [map]. congruence.
        -- intros (-> & _). reflexivity.
Qed.

(** A row wider than its header. *)
Lemma X3_table_raises_iff_witness :
  _stock_performers_ws
    (Sample.block performance_top_stocks
       [Sample.tr ["Name"]; Sample.tr ["AAA"; "1.0"]])
  = Raise ValueError.
Proof.
  apply (proj2 (X3_table_raises_iff
                  (Sample.block performance_top_stocks
                     [Sample.tr ["Name"]; Sample.tr ["AAA"; "1.0"]])
                  ValueError)).
  split; [reflexivity|].
  exists (Sample.tr ["Name"]), [Sample.tr ["AAA"; "1.0"]].
  repeat split; discriminate.
Defined.

(** X4: a container that holds a header row and nothing else comes back as
    an empty table under the names of that row, whatever the row holds. *)
Theorem X4_header_only (data row0 : PageElement) :
  Bs4.find_all "tr" data = [row0] ->
  _stock_performers_ws data =
  Return (Some {| Pd.columns := row_cells row0; Pd.values := [] |}).
Proof.
  intros H. now rewrite _stock_performers_ws_rows, H.
Qed.

(** A block with the header row alone. *)
Lemma X4_header_only_witness :
  _stock_performers_ws
    (Sample.block performance_top_stocks [Sample.tr ["Name"; "Last"]])
  = Return (Some {| Pd.columns := ["Name"; "Last"]; Pd.values := [] |}).
Proof.
  exact (@X4_header_only
           (Sample.block performance_top_stocks [Sample.tr ["Name"; "Last"]])
           (Sample.tr ["Name"; "Last"]) eq_refl).
Defined.

(** ** Row and cell texts *)

Lemma split_nl_not_nil (s : string) : Str.split_nl s <> [].
Proof.
  destruct s as [|c s]; simpl; [discriminate|].
  destruct (Ascii.eqb c Str.nl); [discriminate|].
  destruct (Str.split_nl s); discriminate.
Qed.

Lemma split_nl_no_line_break (s : string) :
  Forall no_line_break (Str.split_nl s).
Proof.
  induction s as [|c s IH]; simpl.
  - constructor; [|constructor]. intros [].
  - destruct (Ascii.eqb_spec c Str.nl) as [->|Hc].
    + constructor; [intros []|exact IH].
    + destruct (Str.split_nl s) as [|f fs].
      * constructor; [|constructor]. simpl. intros [H|[]]. congruence.
      * inversion IH as [|? ? Hf Hfs]; subst.
        constructor; [|exact Hfs].
        unfold no_line_break in *. simpl. intros [H|H]; [congruence|tauto].
Qed.

Lemma concat_empty_cons (x : string) (l : list string) :
  String.concat "" (x :: l) = String.append x (String.concat "" l).
Proof.
  destruct l as [|y l]; simpl.
  - induction x as [|c x IH]; simpl; [reflexivity|]. now rewrite <- IH.
  - reflexivity.
Qed.

Lemma concat_filter_split_nl (s : string) :
  String.concat "" (Str.filter_None (Str.split_nl s)) = Str.replace_nl s.
Proof.
  unfold Str.filter_None. induction s as [|c s IH]; [reflexivity|].
  cbn [Str.split_nl Str.replace_nl].
  destruct (Ascii.eqb c Str.nl).
  - cbn [filter Str.truthy]. exact IH.
  - pose proof (split_nl_not_nil s) as Hne.
    destruct (Str.split_nl s) as [|f fs]; [congruence|].
    cbn [filter Str.truthy]. rewrite concat_empty_cons.
    rewrite <- IH. cbn [filter]. destruct f as [|c' f]; cbn [Str.truthy].
    + reflexivity.
    + rewrite concat_empty_cons. reflexivity.
Qed.

Lemma replace_nl_no_line_break (s : string) :
  no_line_break (Str.replace_nl s).
Proof.
  unfold no_line_break. induction s as [|c s IH]; simpl; [tauto|].
  destruct (Ascii.eqb_spec c Str.nl); [exact IH|].
  simpl. intros [H|H]; [congruence|tauto].
Qed.

(** X5: the cells that [_stock_performers_ws] reads from a row keep the
    row's text: no cell is empty, no cell holds a line break, and the cells
    put end to end are the text of the row with its line breaks removed (the
    text that the period loop would read from the same element). *)
Theorem X5_row_cells_keep_text (row : PageElement) :
  Forall (fun cell => cell <> EmptyString /\ no_line_break cell)
         (row_cells row) /\
  String.concat "" (row_cells row) = cell_text row.
Proof.
  split.
  - apply Forall_forall. intros cell Hin. split.
    + pose proof (row_cells_nonempty row) as H.
      rewrite Forall_forall in H. now apply H.
    + unfold row_cells, Str.filter_None in Hin. apply filter_In in Hin.
      pose proof (split_nl_no_line_break (Bs4.text row)) as H.
      rewrite Forall_forall in H. apply H, Hin.
  - apply concat_filter_split_nl.
Qed.

(** ** The period loop *)

Lemma NoDup_keys_set (V : Type) (d : Dict.t V) (k : string) (v : V) :
  NoDup (Dict.keys d) -> NoDup (Dict.keys (Dict.set k v d)).
Proof.
  intros Hnd. apply (NoDup_count_occ string_dec). intros x.
  rewrite count_keys_set.
  rewrite (NoDup_count_occ string_dec) in Hnd.
  destruct (in_dec string_dec k (Dict.keys d)) as [Hin|Hn]; [apply Hnd|].
  destruct (string_dec k x) as [->|]; [|rewrite Nat.add_0_r; apply Hnd].
  apply (count_occ_not_In string_dec) in Hn. lia.
Qed.

Lemma length_set (V : Type) (d : Dict.t V) (k : string) (v : V) :
  List.length (Dict.set k v d) <= S (List.length d).
Proof.
  induction d as [|[k' v'] d IH]; simpl; [lia|].
  destruct (String.eqb k' k); simpl; lia.
Qed.

Lemma in_set (V : Type) (d : Dict.t V) (k k' : string) (v v' : V) :
  In (k, v) (Dict.set k' v' d) -> (k, v) = (k', v') \/ In (k, v) d.
Proof.
  induction d as [|[k0 v0] d IH]; simpl.
  - intros [H|[]]. left. now symmetry.
  - destruct (String.eqb k0 k'); simpl.
    + intros [H|H]; [left; now symmetry|tauto].
    + intros [H|H]; [tauto|]. destruct (IH H); tauto.
Qed.

Lemma update_facts (V : Type) (l : list (string * V)) (d : Dict.t V) :
  (NoDup (Dict.keys d) -> NoDup (Dict.keys (Dict.update d l))) /\
  List.length (Dict.update d l) <= List.length d + List.length l /\
  (forall k v, In (k, v) (Dict.update d l) -> In (k, v) d \/ In (k, v) l).
Proof.
  revert d. induction l as [|[k v] l IH]; intros d.
  - unfold Dict.update. simpl. repeat split; auto. lia.
  - rewrite update_cons. destruct (IH (Dict.set k v d)) as (H1 & H2 & H3).
    repeat split.
    + intros Hnd. apply H1. now apply NoDup_keys_set.
    + pose proof (length_set d k v). simpl. lia.
    + intros k0 v0 Hin. destruct (H3 _ _ Hin) as [H|H].
      * apply in_set in H. destruct H as [H|H]; [right; left; now symmetry|tauto].
      * right. now right.
Qed.

Lemma length_pairwise (data : list PageElement) :
  2 * List.length (pairwise data) <= List.length data.
Proof.
  induction data as [|x|x y l IH] using pair_ind; simpl in *; lia.
Qed.

Lemma pairwise_no_line_break (data : list PageElement) (k v : string) :
  In (k, v) (pairwise data) -> no_line_break k /\ no_line_break v.
Proof.
  induction data as [|x|x y l IH] using pair_ind; simpl; try tauto.
  intros [[= <- <-]|H]; [|auto].
  split; apply replace_nl_no_line_break.
Qed.

(** C6: on a cell sequence of even length the period loop returns the
    mapping obtained by assigning the cells two at a time, the text of each
    even-indexed cell with its line breaks removed as key and the text of the
    cell after it, with its line breaks removed, as value.  Every
    even-indexed cell's stripped text is a key of the result, bound to the
    value of one of the pairs with that label; every entry of the result is
    the stripped text of an even-indexed cell with the stripped text of the
    cell after it, so no key and no value holds a line break; when the
    labels are distinct the mapping is exactly the sequence of pairs, in
    document order.  The cells "1 Day", "+1.2%", "1 Year", "+15.0%" give
    {"1 Day": "+1.2%", "1 Year": "+15.0%"}, also when the cells' texts are
    broken over lines. *)
Theorem C6_pairwise_mapping :
  (forall data : list PageElement,
     Nat.even (List.length data) = true ->
     exists data_1,
       performance_per_periods data = Return data_1 /\
       data_1 = Dict.update Dict.empty (pairwise data) /\
       (forall i info value,
          nth_error data (2 * i) = Some info ->
          nth_error data (2 * i + 1) = Some value ->
          In (Str.replace_nl (Bs4.text info), Str.replace_nl (Bs4.text value))
             (pairwise data) /\
          exists v,
            Dict.get (Str.replace_nl (Bs4.text info)) data_1 = Some v /\
            In (Str.replace_nl (Bs4.text info), v) (pairwise data)) /\
       (forall k, In k (Dict.keys data_1) ->
                  exists i info, nth_error data (2 * i) = Some info /\
                                 Str.replace_nl (Bs4.text info) = k) /\
       (forall k v,
          In (k, v) data_1 ->
          no_line_break k /\ no_line_break v /\
          exists i info value,
            nth_error data (2 * i) = Some info /\
            nth_error data (2 * i + 1) = Some value /\
            k = Str.replace_nl (Bs4.text info) /\
            v = Str.replace_nl (Bs4.text value)) /\
       (NoDup (map fst (pairwise data)) ->
        data_1 = pairwise data /\
        forall i info value,
          nth_error data (2 * i) = Some info ->
          nth_error data (2 * i + 1) = Some value ->
          nth_error data_1 i =
          Some (Str.replace_nl (Bs4.text info),
                Str.replace_nl (Bs4.text value)))) /\
  performance_per_periods
    [Sample.td "1 Day"; Sample.td "+1.2%";
     Sample.td "1 Year"; Sample.td "+15.0%"]
  = Return [("1 Day", "+1.2%"); ("1 Year", "+15.0%")] /\
  performance_per_periods
    [Tag "td" None [Sample.br; NavigableString "1 Day"; Sample.br];
     Tag "td" None [NavigableString "+1.2%"; Sample.br];
     Tag "td" None [NavigableString "1 "; Sample.br; NavigableString "Year"];
     Tag "td" None [Sample.br; NavigableString "+15.0%"]]
  = Return [("1 Day", "+1.2%"); ("1 Year", "+15.0%")].
Proof.
  split; [|split; reflexivity].
  intros data Heven. rewrite performance_per_periods_spec, Heven.
  eexists. split; [reflexivity|]. split; [reflexivity|].
  split; [|split; [|split]].
  - intros i info value Hi Hv.
    fold (cell_text info). fold (cell_text value).
    pose proof (pairwise_nth data i Hi Hv) as Hn.
    split; [eapply nth_error_In; eassumption|].
    assert (Hin : In (cell_text info) (map fst (pairwise data))).
    { apply in_map_iff. eexists. split; [|eapply nth_error_In; eassumption].
      reflexivity. }
    clear Hn Hi Hv. revert Hin. generalize (cell_text info) as k.
    generalize (pairwise data) as l. intros l k.
    induction l as [|[k' v'] l IH] using rev_ind; [intros []|].
    rewrite map_app, in_app_iff. cbn [map fst In]. intros Hin.
    rewrite update_snoc.
    destruct (string_dec k k') as [->|Hne].
    + exists v'. rewrite get_set_same. split; [reflexivity|].
      apply in_or_app. right. now left.
    + rewrite get_set_other by assumption.
      destruct IH as (v & Hget & Hl); [intuition congruence|].
      exists v. split; [assumption|]. apply in_or_app. now left.
  - intros k Hk. apply in_keys_update in Hk. destruct Hk as [[]|Hk].
    apply in_map_iff in Hk. destruct Hk as ([k0 v] & Hfst & Hin).
    simpl in Hfst. subst k0.
    apply In_nth_error in Hin. destruct Hin as [i Hi].
    destruct (nth_pairwise _ _ Hi) as (info & _ & H1 & _ & H3 & _).
    exists i, info. auto.
  - intros k v Hin.
    destruct (update_facts (pairwise data) (@Dict.empty string))
      as (_ & _ & H3).
    destruct (H3 _ _ Hin) as [[]|Hp].
    destruct (pairwise_no_line_break _ _ _ Hp) as [Hk Hv].
    split; [exact Hk|]. split; [exact Hv|].
    apply In_nth_error in Hp. destruct Hp as [i Hi].
    destruct (nth_pairwise _ _ Hi) as (info & value & H1 & H2 & <- & <-).
    exists i, info, value. auto.
  - intros Hnd.
    assert (E : Dict.update Dict.empty (pairwise data) = pairwise data)
      by exact (update_nodup (pairwise data) Dict.empty Hnd).
    split; [exact E|].
    intros i info value Hi Hv. rewrite E.
    exact (pairwise_nth data i Hi Hv).
Qed.

(** Two pairs with distinct labels, the first label and the first value
    written with line breaks. *)
Lemma C6_pairwise_mapping_witness :
  exists data_1,
    performance_per_periods
      [Tag "td" None [Sample.br; NavigableString "1 Week"];
       Tag "td" None [NavigableString "-0.4%"; Sample.br];
       Sample.td "YTD"; Sample.td "+7.1%"] = Return data_1 /\
    data_1 = [("1 Week", "-0.4%"); ("YTD", "+7.1%")].
Proof.
  destruct (proj1 C6_pairwise_mapping
              [Tag "td" None [Sample.br; NavigableString "1 Week"];
               Tag "td" None [NavigableString "-0.4%"; Sample.br];
               Sample.td "YTD"; Sample.td "+7.1%"] eq_refl)
    as (data_1 & Hrun & Hdef & _).
  exists data_1. split; [exact Hrun|]. rewrite Hdef. reflexivity.
Defined.

(** X6: a mapping that the period loop returns has each label once, holds
    at most one entry for every two cells, and no label or value in it holds
    a line break. *)
Theorem X6_period_map_well_formed
    (data : list PageElement) (data_1 : Dict.t string) :
  performance_per_periods data = Return data_1 ->
  NoDup (Dict.keys data_1) /\
  2 * List.length data_1 <= List.length data /\
  forall k v, In (k, v) data_1 -> no_line_break k /\ no_line_break v.
Proof.
  rewrite performance_per_periods_spec.
  destruct (Nat.even (List.length data)); [|discriminate].
  intros [= <-].
  destruct (update_facts (pairwise data) (@Dict.empty string))
    as (H1 & H2 & H3).
  split; [apply H1; constructor|]. split.
  - pose proof (length_pairwise data). simpl in H2. lia.
  - intros k v Hin. destruct (H3 _ _ Hin) as [[]|H].
    eapply pairwise_no_line_break; eassumption.
Qed.

(** Three pairs, the first label repeated and a value broken over two
    lines. *)
Lemma X6_period_map_well_formed_witness :
  NoDup ["X"; "Y"] /\
  2 * 2 <= 6 /\
  forall k v, In (k, v) [("X", "2"); ("Y", "5%")] ->
              no_line_break k /\ no_line_break v.
Proof.
  exact (@X6_period_map_well_formed
           [Sample.td "X"; Sample.td "1";
            Sample.td "Y"; Tag "td" None [NavigableString "5"; Sample.br;
                                          NavigableString "%"];
            Sample.td "X"; Sample.td "2"]
           [("X", "2"); ("Y", "5%")] eq_refl).
Defined.

Lemma keys_set (V : Type) (d : Dict.t V) (k : string) (v : V) :
  Dict.keys (Dict.set k v d) =
  if Str.mem k (Dict.keys d) then Dict.keys d else Dict.keys d ++ [k].
Proof.
  unfold Dict.keys, Str.mem. induction d as [|[k' v'] d IH]; simpl.
  - reflexivity.
  - rewrite (String.eqb_sym k k'). destruct (String.eqb_spec k' k); simpl.
    + now subst.
    + rewrite IH. destruct (existsb (String.eqb k) (map fst d)); reflexivity.
Qed.

Lemma filter_filter (A : Type) (f g : A -> bool) (l : list A) :
  filter f (filter g l) = filter (fun x => g x && f x) l.
Proof.
  induction l as [|x l IH]; simpl; [reflexivity|].
  destruct (g x); simpl; [destruct (f x)|]; now rewrite IH.
Qed.

Lemma mem_app (x : string) (l1 l2 : list string) :
  Str.mem x (l1 ++ l2) = Str.mem x l1 || Str.mem x l2.
Proof. unfold Str.mem. apply existsb_app. Qed.

(** The keys after the pairs [l] are assigned into [d]: those of [d], then
    the new labels in the order of their first occurrences. *)
Lemma keys_update (V : Type) (l : list (string * V)) (d : Dict.t V) :
  Dict.keys (Dict.update d l) =
  Dict.keys d ++
  filter (fun y => negb (Str.mem y (Dict.keys d)))
         (first_occurrences (map fst l)).
Proof.
  revert d. induction l as [|[k v] l IH]; intros d.
  - unfold Dict.update. simpl. now rewrite app_nil_r.
  - rewrite update_cons, IH, keys_set. cbn [map fst first_occurrences filter].
    rewrite filter_filter.
    destruct (Str.mem k (Dict.keys d)) eqn:Hk; cbn [negb].
    + f_equal. apply filter_ext_in. intros y _.
      destruct (String.eqb_spec y k) as [->|]; [now rewrite Hk|reflexivity].
    + rewrite <- app_assoc. cbn [app]. do 2 f_equal.
      apply filter_ext_in. intros y _. rewrite mem_app.
      unfold Str.mem at 2. cbn [existsb]. rewrite orb_false_r.
      rewrite negb_orb. apply andb_comm.
Qed.

(** X7: the keys of the mapping that the period loop returns stand in
    document order: they are the labels (the texts of the even-indexed
    cells) in the order in which each label occurs first; a label that comes
    again keeps its place. *)
Theorem X7_period_map_key_order
    (data : list PageElement) (data_1 : Dict.t string) :
  performance_per_periods data = Return data_1 ->
  Dict.keys data_1 = first_occurrences (map fst (pairwise data)).
Proof.
  rewrite performance_per_periods_spec.
  destruct (Nat.even (List.length data)); [|discriminate].
  intros [= <-]. rewrite keys_update. cbn [Dict.keys Dict.empty map app].
  rewrite <- (filter_ext (fun _ => true)) by reflexivity.
  induction (first_occurrences (map fst (pairwise data))) as [|x l IH];
    simpl; [reflexivity|]. now rewrite IH.
Qed.

(** The label [X] comes again after [Y] and stays first. *)
Lemma X7_period_map_key_order_witness :
  ["X"; "Y"] =
  first_occurrences
    (map fst (pairwise [Sample.td "X"; Sample.td "1";
                        Sample.td "Y"; Sample.td "5";
                        Sample.td "X"; Sample.td "2"])).
Proof.
  exact (@X7_period_map_key_order
           [Sample.td "X"; Sample.td "1"; Sample.td "Y"; Sample.td "5";
            Sample.td "X"; Sample.td "2"]
           [("X", "2"); ("Y", "5")] eq_refl).
Defined.

(** ** The loop over the metrics in [_sp500] *)

Lemma requested_times_0 (w : world) : requested_times 0 w = w.
Proof. destruct w. unfold requested_times. simpl. now rewrite app_nil_r. Qed.

Lemma requested_times_S (k : nat) (w : world) :
  requested_times k (requested_once w) = requested_times (S k) w.
Proof.
  unfold requested_times, requested_once. simpl. now rewrite <- app_assoc.
Qed.

Lemma requested_once_times (k : nat) (w : world) :
  requested_once (requested_times k w) = requested_times (S k) w.
Proof.
  unfold requested_times, requested_once. cbn [responses requested stdout].
  rewrite <- app_assoc. now rewrite <- repeat_cons.
Qed.

Lemma length_requested_times (k : nat) (w : world) :
  List.length (requested (requested_times k w))
  = List.length (requested w) + k.
Proof. simpl. now rewrite length_app, repeat_length. Qed.

(** As long as the containers are found and not empty, the loop goes on:
    after the metrics [pre] it has made one request for each and stored
    their containers. *)
Lemma locate_all_prefix (pre metrics : list string) :
  forall (ws_dict : Dict.t (option PageElement)) (w : world),
    Forall located
           (containers (responses w) (List.length (requested w)) pre) ->
    locate_all (pre ++ metrics) ws_dict w =
    locate_all metrics
      (Dict.update ws_dict
         (combine pre (containers (responses w)
                                  (List.length (requested w)) pre)))
      (requested_times (List.length pre) w).
Proof.
  induction pre as [|metric pre IH]; intros ws_dict w Hloc.
  - now rewrite requested_times_0.
  - cbn [containers] in Hloc. inversion Hloc as [|c cs (tag & Hc & Hlen) Hcs].
    subst c cs.
    cbn [app locate_all containers combine List.length]. unfold bind at 1.
    rewrite locate_run.
    destruct (responses w (List.length (requested w))) as [soup|];
      [|discriminate].
    rewrite Hc. apply Nat.eqb_neq in Hlen. rewrite Hlen.
    assert (Hn : List.length (requested (requested_once w))
                 = S (List.length (requested w))).
    { simpl. rewrite length_app. simpl. lia. }
    rewrite IH.
    + cbn [responses requested_once]. rewrite Hn, requested_times_S.
      now rewrite update_cons.
    + cbn [responses requested_once]. rewrite Hn. exact Hcs.
Qed.

(** The turn of the loop for [metric], reached after the metrics [pre]. *)
Lemma _sp500_turn (w : world) (pre post : list string) (metric : string) :
  [performance_by_period; performance_top_stocks; performance_bottom_stocks]
  = pre ++ metric :: post ->
  Forall located
         (containers (responses w) (List.length (requested w)) pre) ->
  _sp500 w =
  match responses w (List.length (requested w) + List.length pre) with
  | None => (Raise ConnectionError, requested_times (S (List.length pre)) w)
  | Some soup =>
      match Bs4.find "div" (regex_search metric) soup with
      | None => (Raise TypeError, requested_times (S (List.length pre)) w)
      | Some tag =>
          if Bs4.len tag =? 0
          then (Return None,
                printed (changed_message metric)
                        (requested_times (S (List.length pre)) w))
          else
            match locate_all post
                    (Dict.set metric (Some tag)
                       (Dict.update Dict.empty
                          (combine pre
                             (containers (responses w)
                                (List.length (requested w)) pre))))
                    (requested_times (S (List.length pre)) w) with
            | (Return None, w') => (Return None, w')
            | (Return (Some ws_dict), w') => (extract_all ws_dict, w')
            | (Raise e, w') => (Raise e, w')
            end
      end
  end.
Proof.
  intros Hsplit Hloc. rewrite _sp500_run, Hsplit.
  rewrite locate_all_prefix by assumption.
  cbn [locate_all]. unfold bind at 1. rewrite locate_run.
  rewrite length_requested_times, requested_once_times.
  cbn [responses requested_times].
  destruct (responses w (List.length (requested w) + List.length pre))
    as [soup|]; [|reflexivity].
  destruct (Bs4.find "div" (regex_search metric) soup) as [tag|];
    [|reflexivity].
  destruct (Bs4.len tag =? 0); reflexivity.
Qed.

(** X8: when the transport fails at the request for a metric, the metrics
    before it having been located, [_sp500] raises ConnectionError at once:
    it has made one request for each metric up to that one, makes no further
    request (no retry, no later metric) and prints nothing. *)
Theorem X8_transport_failure_stops
    (w : world) (pre post : list string) (metric : string) :
  [performance_by_period; performance_top_stocks; performance_bottom_stocks]
  = pre ++ metric :: post ->
  Forall located
         (containers (responses w) (List.length (requested w)) pre) ->
  responses w (List.length (requested w) + List.length pre) = None ->
  _sp500 w = (Raise ConnectionError, requested_times (S (List.length pre)) w).
Proof.
  intros Hsplit Hloc Hresp.
  now rewrite (@_sp500_turn w pre post metric Hsplit Hloc), Hresp.
Qed.

(** The site serves the page once and fails afterwards. *)
Lemma X8_transport_failure_stops_witness :
  _sp500 (SampleData.serving_then 1 Sample.page None)
  = (Raise ConnectionError,
     requested_times 2 (SampleData.serving_then 1 Sample.page None)).
Proof.
  apply (@X8_transport_failure_stops
           (SampleData.serving_then 1 Sample.page None)
           [performance_by_period] [performance_bottom_stocks]
           performance_top_stocks eq_refl).
  - repeat constructor. exists Sample.periods.
    split; [reflexivity|discriminate].
  - reflexivity.
Defined.

(** X9: when the block of a metric is found but has no contents, the
    metrics before it having been located, [_sp500] returns [None] at once:
    it prints the one line that names that metric, has made one request for
    each metric up to that one, and does not look up the metrics after
    it. *)
Theorem X9_empty_container_stops
    (w : world) (pre post : list string) (metric : string)
    (soup tag : PageElement) :
  [performance_by_period; performance_top_stocks; performance_bottom_stocks]
  = pre ++ metric :: post ->
  Forall located
         (containers (responses w) (List.length (requested w)) pre) ->
  responses w (List.length (requested w) + List.length pre) = Some soup ->
  Bs4.find "div" (regex_search metric) soup = Some tag ->
  Bs4.len tag = 0 ->
  _sp500 w = (Return None,
              printed (changed_message metric)
                      (requested_times (S (List.length pre)) w)).
Proof.
  intros Hsplit Hloc Hresp Hfind Hlen.
  now rewrite (@_sp500_turn w pre post metric Hsplit Hloc), Hresp, Hfind, Hlen.
Qed.

(** A page whose gainers block is empty. *)
Lemma X9_empty_container_stops_witness :
  _sp500 (Sample.serving
            (Sample.document
               [Sample.periods; Sample.block performance_top_stocks [];
                Sample.decliners]))
  = (Return None,
     {| responses := fun _ =>
          Some (Sample.document
                  [Sample.periods; Sample.block performance_top_stocks [];
                   Sample.decliners]);
        requested := [index_url; index_url];
        stdout :=
          ["The web-scrape metric name seems to be changed for ByIndexGainers."]
     |}).
Proof.
  apply (@X9_empty_container_stops
           (Sample.serving
              (Sample.document
                 [Sample.periods; Sample.block performance_top_stocks [];
                  Sample.decliners]))
           [performance_by_period] [performance_bottom_stocks]
           performance_top_stocks
           (Sample.document
              [Sample.periods; Sample.block performance_top_stocks [];
               Sample.decliners])
           (Sample.block performance_top_stocks []) eq_refl).
  - repeat constructor. exists Sample.periods.
    split; [reflexivity|discriminate].
  - reflexivity.
  - reflexivity.
  - reflexivity.
Defined.

(** X10: when the page fetched for a metric has no [div] that [find]
    accepts, the metrics before it having been located, [_sp500] raises
    TypeError, whichever of the three metrics it is: it has made one request
    for each metric up to that one and has printed nothing. *)
Theorem X10_missing_container_any_metric
    (w : world) (pre post : list string) (metric : string)
    (soup : PageElement) :
  [performance_by_period; performance_top_stocks; performance_bottom_stocks]
  = pre ++ metric :: post ->
  Forall located
         (containers (responses w) (List.length (requested w)) pre) ->
  responses w (List.length (requested w) + List.length pre) = Some soup ->
  Bs4.find "div" (regex_search metric) soup = None ->
  _sp500 w = (Raise TypeError, requested_times (S (List.length pre)) w).
Proof.
  intros Hsplit Hloc Hresp Hfind.
  now rewrite (@_sp500_turn w pre post metric Hsplit Hloc), Hresp, Hfind.
Qed.

(** A page without the decliners block. *)
Lemma X10_missing_container_any_metric_witness :
  _sp500 (Sample.serving (Sample.document [Sample.periods; Sample.gainers]))
  = (Raise TypeError,
     requested_times 3
       (Sample.serving (Sample.document [Sample.periods; Sample.gainers]))).
Proof.
  apply (@X10_missing_container_any_metric
           (Sample.serving (Sample.document [Sample.periods; Sample.gainers]))
           [performance_by_period; performance_top_stocks] []
           performance_bottom_stocks
           (Sample.document [Sample.periods; Sample.gainers]) eq_refl).
  - repeat constructor.
    + exists Sample.periods. split; [reflexivity|discriminate].
    + exists Sample.gainers. split; [reflexivity|discriminate].
  - reflexivity.
  - reflexivity.
Defined.

(** With the three blocks found and not empty, the loop ends after three
    requests and the rest of [_sp500] works on the three containers. *)
Lemma _sp500_located (w : world) (c1 c2 c3 : PageElement) :
  containers (responses w) (List.length (requested w))
             [performance_by_period; performance_top_stocks;
              performance_bottom_stocks]
  = [Some c1; Some c2; Some c3] ->
  Bs4.len c1 <> 0 -> Bs4.len c2 <> 0 -> Bs4.len c3 <> 0 ->
  _sp500 w =
  (let? data_1 := performance_per_periods (Bs4.find_all "td" c1) in
   let? data_2 := _stock_performers_ws c2 in
   let? data_3 := _stock_performers_ws c3 in
   Return (Some [(performance_by_period, PyDict data_1);
                 (performance_top_stocks, of_optional data_2);
                 (performance_bottom_stocks, of_optional data_3)]),
   requested_times 3 w).
Proof.
  intros Hcs H1 H2 H3.
  assert (Hloc : Forall located
            (containers (responses w) (List.length (requested w))
               [performance_by_period; performance_top_stocks;
                performance_bottom_stocks])).
  { rewrite Hcs. repeat constructor; eexists; split; eauto. }
  pose proof (@locate_all_prefix
                [performance_by_period; performance_top_stocks;
                 performance_bottom_stocks] [] Dict.empty w Hloc) as Hrun.
  cbn [app] in Hrun. rewrite Hcs in Hrun.
  rewrite _sp500_run, Hrun. cbn [locate_all]. unfold ret.
  cbn [List.length]. f_equal.
Qed.

Lemma extract_all_not_None (ws_dict : Dict.t (option PageElement)) :
  extract_all ws_dict <> Return None.
Proof.
  unfold extract_all.
  destruct (let? x := getkey ws_dict performance_by_period in as_tag x)
    as [c1|]; [|discriminate]. cbn [obind].
  destruct (performance_per_periods _) as [data_1|]; [|discriminate].
  cbn [obind].
  destruct (let? x := getkey ws_dict performance_top_stocks in as_tag x)
    as [c2|]; [|discriminate]. cbn [obind].
  destruct (_stock_performers_ws c2) as [data_2|]; [|discriminate].
  cbn [obind].
  destruct (let? x := getkey ws_dict performance_bottom_stocks in as_tag x)
    as [c3|]; [|discriminate]. cbn [obind].
  destruct (_stock_performers_ws c3) as [data_3|]; discriminate.
Qed.

(** X11: when each of the three requests serves a page in which the block
    of its metric is found and not empty, [_sp500] makes exactly three
    requests, prints nothing, and its result is that of the three
    extractions from those blocks: the period loop on the [td] cells of the
    first, [_stock_performers_ws] on the second and on the third, in this
    order, the first exception ending the call. *)
Theorem X11_located_blocks_determine_result
    (w : world) (c1 c2 c3 : PageElement) :
  containers (responses w) (List.length (requested w))
             [performance_by_period; performance_top_stocks;
              performance_bottom_stocks]
  = [Some c1; Some c2; Some c3] ->
  Bs4.len c1 <> 0 -> Bs4.len c2 <> 0 -> Bs4.len c3 <> 0 ->
  _sp500 w =
  (let? data_1 := performance_per_periods (Bs4.find_all "td" c1) in
   let? data_2 := _stock_performers_ws c2 in
   let? data_3 := _stock_performers_ws c3 in
   Return (Some [(performance_by_period, PyDict data_1);
                 (performance_top_stocks, of_optional data_2);
                 (performance_bottom_stocks, of_optional data_3)]),
   {| responses := responses w;
      requested := requested w ++ [index_url; index_url; index_url];
      stdout := stdout w |}).
Proof.
  intros Hcs H1 H2 H3. exact (_sp500_located w Hcs H1 H2 H3).
Qed.

(** The sample page, served at every request. *)
Lemma X11_located_blocks_determine_result_witness :
  _sp500 (Sample.serving Sample.page) =
  (Return (Some [("performance",
                  PyDict [("1 Day", "+1.2%"); ("1 Year", "+15.0%")]);
                 ("ByIndexGainers",
                  PyDataFrame
                    {| Pd.columns := ["Name"; "Last"];
                       Pd.values := [[Some "AAA"; Some "1.0"];
                                     [Some "BBB"; Some "3.5"]] |});
                 ("ByIndexDecliners",
                  PyDataFrame
                    {| Pd.columns := ["Name"; "Last"];
                       Pd.values := [[Some "CCC"; Some "2.0"]] |})]),
   {| responses := fun _ => Some Sample.page;
      requested := [index_url; index_url; index_url];
      stdout := [] |}).
Proof.
  apply (@X11_located_blocks_determine_result
           (Sample.serving Sample.page)
           Sample.periods Sample.gainers Sample.decliners eq_refl);
    discriminate.
Defined.

(** X12: [_sp500] prints exactly when it returns [None]: in every other
    outcome, a bundle or an exception, the lines printed are those printed
    before the call. *)
Theorem X12_prints_exactly_on_None (w : world) :
  stdout (snd (_sp500 w)) = stdout w <-> fst (_sp500 w) <> Return None.
Proof.
  rewrite _sp500_run.
  destruct (locate_all _ _ w) as [r w'] eqn:Hrun.
  apply locate_all_inv in Hrun.
  destruct Hrun as (_ & n & _ & _ & _ & Hr).
  destruct r as [[ws_dict|]|e]; cbn [fst snd].
  - destruct Hr as (_ & Hout & _). split; [intros _|auto].
    apply extract_all_not_None.
  - destruct Hr as (metric & _ & Hout). split.
    + intros Heq. rewrite Heq in Hout.
      apply (f_equal (@List.length string)) in Hout.
      rewrite length_app in Hout. simpl in Hout. lia.
    + intros Hne. congruence.
  - destruct Hr as (_ & Hout). split; [discriminate|auto].
Qed.

(** The sample page: a bundle, and nothing printed. *)
Lemma X12_prints_exactly_on_None_witness :
  stdout (snd (_sp500 (Sample.serving Sample.page))) = [].
Proof.
  apply (proj2 (X12_prints_exactly_on_None (Sample.serving Sample.page))).
  discriminate.
Defined.

(** X13: the extractions fail in their order.  With the three blocks found
    and not empty, an odd number of [td] cells in the period block makes
    [_sp500] raise IndexError after its three requests, whatever the two
    performer blocks hold; with an even number, a gainers block on which
    [_stock_performers_ws] raises makes it raise ValueError, whatever the
    decliners block holds. *)
Theorem X13_extraction_failures_in_order
    (w : world) (c1 c2 c3 : PageElement) :
  containers (responses w) (List.length (requested w))
             [performance_by_period; performance_top_stocks;
              performance_bottom_stocks]
  = [Some c1; Some c2; Some c3] ->
  Bs4.len c1 <> 0 -> Bs4.len c2 <> 0 -> Bs4.len c3 <> 0 ->
  (Nat.odd (List.length (Bs4.find_all "td" c1)) = true ->
   _sp500 w = (Raise IndexError, requested_times 3 w)) /\
  (Nat.even (List.length (Bs4.find_all "td" c1)) = true ->
   _stock_performers_ws c2 = Raise ValueError ->
   _sp500 w = (Raise ValueError, requested_times 3 w)).
Proof.
  intros Hcs H1 H2 H3. rewrite (_sp500_located w Hcs H1 H2 H3).
  rewrite performance_per_periods_spec. split.
  - unfold Nat.odd. intros Hodd. apply negb_true_iff in Hodd.
    now rewrite Hodd.
  - intros Heven Hraise. now rewrite Heven, Hraise.
Qed.

(** A page with three period cells and a gainers row wider than its
    header; the same page with the third cell paired. *)
Lemma X13_extraction_failures_in_order_witness :
  _sp500 (Sample.serving
            (Sample.document
               [Sample.block performance_by_period
                  [Sample.td "1 Day"; Sample.td "+1.2%"; Sample.td "1 Year"];
                Sample.block performance_top_stocks
                  [Sample.tr ["Name"]; Sample.tr ["AAA"; "1.0"]];
                Sample.decliners]))
  = (Raise IndexError,
     requested_times 3
       (Sample.serving
          (Sample.document
             [Sample.block performance_by_period
                [Sample.td "1 Day"; Sample.td "+1.2%"; Sample.td "1 Year"];
              Sample.block performance_top_stocks
                [Sample.tr ["Name"]; Sample.tr ["AAA"; "1.0"]];
              Sample.decliners]))) /\
  _sp500 (Sample.serving
            (Sample.document
               [Sample.periods;
                Sample.block performance_top_stocks
                  [Sample.tr ["Name"]; Sample.tr ["AAA"; "1.0"]];
                Sample.decliners]))
  = (Raise ValueError,
     requested_times 3
       (Sample.serving
          (Sample.document
             [Sample.periods;
              Sample.block performance_top_stocks
                [Sample.tr ["Name"]; Sample.tr ["AAA"; "1.0"]];
              Sample.decliners]))).
Proof.
  split.
  - apply (proj1 (@X13_extraction_failures_in_order
             (Sample.serving
                (Sample.document
                   [Sample.block performance_by_period
                      [Sample.td "1 Day"; Sample.td "+1.2%";
                       Sample.td "1 Year"];
                    Sample.block performance_top_stocks
                      [Sample.tr ["Name"]; Sample.tr ["AAA"; "1.0"]];
                    Sample.decliners]))
             (Sample.block performance_by_period
                [Sample.td "1 Day"; Sample.td "+1.2%"; Sample.td "1 Year"])
             (Sample.block performance_top_stocks
                [Sample.tr ["Name"]; Sample.tr ["AAA"; "1.0"]])
             Sample.decliners eq_refl
             ltac:(discriminate) ltac:(discriminate) ltac:(discriminate))).
    reflexivity.
  - apply (proj2 (@X13_extraction_failures_in_order
             (Sample.serving
                (Sample.document
                   [Sample.periods;
                    Sample.block performance_top_stocks
                      [Sample.tr ["Name"]; Sample.tr ["AAA"; "1.0"]];
                    Sample.decliners]))
             Sample.periods
             (Sample.block performance_top_stocks
                [Sample.tr ["Name"]; Sample.tr ["AAA"; "1.0"]])
             Sample.decliners eq_refl
             ltac:(discriminate) ltac:(discriminate) ltac:(discriminate)));
      reflexivity.
Defined.

(** ** [IndexView.__init__] *)

Lemma mem_SP500 (name : string) :
  Str.mem name AVAILABLE_INDEX = true <-> name = "SP500".
Proof.
  unfold Str.mem, AVAILABLE_INDEX. cbn [existsb]. rewrite orb_false_r.
  apply String.eqb_eq.
Qed.

Lemma position_None (name : string) (cols : list string) :
  IndexView.position name cols = None <-> ~ In name cols.
Proof.
  induction cols as [|c cols IH]; simpl; [tauto|].
  destruct (String.eqb_spec c name) as [->|Hne].
  - split; [discriminate|tauto].
  - destruct (IndexView.position name cols); simpl.
    + split; [discriminate|]. intros H.
      assert (Hn : ~ In name cols) by tauto.
      apply IH in Hn. discriminate.
    + split; [|reflexivity]. intros _ [H|H]; [congruence|].
      revert H. now apply IH.
Qed.

Lemma cell_eqb_eq (x y : option string) :
  IndexView.cell_eqb x y = true <-> x = y.
Proof.
  destruct x as [a|], y as [b|]; simpl; try (split; congruence).
  rewrite String.eqb_eq. split; congruence.
Qed.

Lemma existsb_cell_eqb (x : option string) (l : list (option string)) :
  existsb (IndexView.cell_eqb x) l = true <-> In x l.
Proof.
  rewrite existsb_exists. split.
  - intros (y & Hin & Heq). apply cell_eqb_eq in Heq. now subst.
  - intros Hin. exists x. split; [assumption|]. now apply cell_eqb_eq.
Qed.

(** [list(set(col))] holds every value of the column, once. *)
Lemma list_set_spec (col : list (option string)) :
  NoDup (IndexView.list_set col) /\
  forall x, In x (IndexView.list_set col) <-> In x col.
Proof.
  induction col as [|x col [IHnd IHin]]; simpl.
  - split; [constructor|tauto].
  - destruct (existsb (IndexView.cell_eqb x) col) eqn:E.
    + apply existsb_cell_eqb in E. split; [assumption|].
      intros y. rewrite IHin. split; [tauto|]. intros [<-|H]; assumption.
    + split.
      * constructor; [|assumption]. rewrite IHin. intros Hin.
        apply existsb_cell_eqb in Hin. congruence.
      * intros y. simpl. rewrite IHin. tauto.
Qed.

(** The constructor on a supported identifier. *)
Lemma __init___supported
    (stock_market_data : string -> option Pd.DataFrame)
    (index : string) (w : world) :
  Str.upper index = "SP500" ->
  IndexView.__init__ stock_market_data index w =
  match stock_market_data "SP500" with
  | None => (Raise AttributeError, w)
  | Some table =>
      match IndexView.column table "Sector" with
      | Raise e => (Raise e, w)
      | Return sectors =>
          (Return {| IndexView.data := table;
                     IndexView._column_names :=
                       [("ticker_symbol", "Ticker"); ("ticker_full", "Name");
                        ("ticker_sector", "Sector")];
                     IndexView.sector_list := IndexView.list_set sectors;
                     IndexView._summary := None |}, w)
      end
  end.
Proof.
  intros Hup. unfold IndexView.__init__. rewrite Hup.
  unfold bind, lift, ret. cbn [Str.mem AVAILABLE_INDEX existsb negb].
  change (String.eqb "SP500" "SP500" || false) with true. cbn [negb].
  destruct (stock_market_data "SP500") as [table|]; [|reflexivity].
  simpl. destruct (IndexView.column table "Sector"); reflexivity.
Qed.



Lemma filter_cell_eqb_absent (x : option string) (l : list (option string)) :
  ~ In x l -> filter (IndexView.cell_eqb x) l = [].
Proof.
  induction l as [|a l IH]; simpl; [reflexivity|]. intros Hn.
  destruct (IndexView.cell_eqb x a) eqn:E.
  - apply cell_eqb_eq in E. subst. tauto.
  - apply IH. tauto.
Qed.

Lemma filter_cell_eqb_once (x : option string) (l : list (option string)) :
  NoDup l -> In x l -> List.length (filter (IndexView.cell_eqb x) l) = 1.
Proof.
  induction 1 as [|a l Ha Hnd IH]; simpl; [tauto|].
  destruct (IndexView.cell_eqb x a) eqn:E.
  - apply cell_eqb_eq in E. subst a. intros _.
    now rewrite filter_cell_eqb_absent.
  - intros [->|Hin]; [|now apply IH].
    assert (IndexView.cell_eqb x x = true) by now apply cell_eqb_eq.
    congruence.
Qed.

(** X15: on a supported identifier whose reference table has a "Sector"
    column (and distinct column names), the constructor returns a view that
    stores the table as it is, with no summary yet, and whose sector list
    holds the values of the column and no other, each sector that is not
    null exactly once; the world is left as it was. *)
Theorem X15_constructor_builds_view
    (stock_market_data : string -> option Pd.DataFrame)
    (index : string) (w : world) (table : Pd.DataFrame)
    (sectors : list (option string)) :
  Str.upper index = "SP500" ->
  stock_market_data "SP500" = Some table ->
  NoDup (Pd.columns table) ->
  IndexView.column table "Sector" = Return sectors ->
  exists view,
    IndexView.__init__ stock_market_data index w = (Return view, w) /\
    IndexView.data view = table /\
    IndexView._summary view = None /\
    (forall cell, In cell (IndexView.sector_list view) <-> In cell sectors) /\
    (forall s,
       In (Some s) sectors ->
       List.length (filter (IndexView.cell_eqb (Some s))
                           (IndexView.sector_list view)) = 1).
Proof.
  intros Hup Htable _ Hcol.
  rewrite (__init___supported stock_market_data index w Hup), Htable, Hcol.
  eexists. split; [reflexivity|]. cbn [IndexView.data IndexView._summary
                                        IndexView.sector_list].
  destruct (list_set_spec sectors) as [Hnd Hin].
  repeat split; try apply Hin; auto.
  intros s Hs. apply filter_cell_eqb_once; [exact Hnd|]. now apply Hin.
Qed.

(** The sample table under the identifier in lower case. *)
Lemma X15_constructor_builds_view_witness :
  exists view,
    IndexView.__init__ SampleData.stock_market_data "sp500"
                       (Sample.serving Sample.page)
    = (Return view, Sample.serving Sample.page) /\
    IndexView.data view = SampleData.table /\
    IndexView._summary view = None /\
    (forall cell,
       In cell (IndexView.sector_list view) <->
       In cell [Some "Utilities"; Some "Energy"; Some "Utilities";
                Some "Utilities"]) /\
    (forall s,
       In (Some s) [Some "Utilities"; Some "Energy"; Some "Utilities";
                    Some "Utilities"] ->
       List.length (filter (IndexView.cell_eqb (Some s))
                           (IndexView.sector_list view)) = 1).
Proof.
  apply (@X15_constructor_builds_view SampleData.stock_market_data "sp500"
           (Sample.serving Sample.page) SampleData.table
           [Some "Utilities"; Some "Energy"; Some "Utilities";
            Some "Utilities"]); try reflexivity.
  repeat constructor; simpl; intuition discriminate.
Defined.

(** X16: on an identifier of ASCII characters, in every outcome the
    constructor leaves the world as it was (no request, nothing printed),
    and besides [Warning] it fails in two ways only: with AttributeError
    exactly when the identifier is supported and the reference data has no
    table for it, and with KeyError exactly when that table has no "Sector"
    column. *)
Theorem X16_constructor_failures
    (stock_market_data : string -> option Pd.DataFrame)
    (index : string) (w : world) :
  Str.is_ascii index = true ->
  snd (IndexView.__init__ stock_market_data index w) = w /\
  (forall e,
     fst (IndexView.__init__ stock_market_data index w) = Raise e ->
     e = Warning \/ e = AttributeError \/ e = KeyError) /\
  (fst (IndexView.__init__ stock_market_data index w) = Raise AttributeError
   <-> Str.upper index = "SP500" /\ stock_market_data "SP500" = None) /\
  (fst (IndexView.__init__ stock_market_data index w) = Raise KeyError
   <-> Str.upper index = "SP500" /\
       exists table, stock_market_data "SP500" = Some table /\
                     ~ In "Sector" (Pd.columns table)).
Proof.
  intros _. split; [apply init_leaves_world|].
  destruct (string_dec (Str.upper index) "SP500") as [Hup|Hne].
  - rewrite (__init___supported stock_market_data index w Hup).
    destruct (stock_market_data "SP500") as [table|].
    + unfold IndexView.column.
      destruct (IndexView.position "Sector" (Pd.columns table)) as [j|] eqn:Hp;
        cbn [fst].
      * assert (Hin : In "Sector" (Pd.columns table)).
        { destruct (in_dec string_dec "Sector" (Pd.columns table)); auto.
          apply position_None in n. congruence. }
        repeat split; try discriminate.
        -- intros (_ & [=]).
        -- intros (_ & t & [= <-] & Hn). contradiction.
      * apply position_None in Hp.
        repeat split; try discriminate; auto.
        -- intros e [= <-]. auto.
        -- intros (_ & [=]).
        -- exists table. auto.
    + cbn [fst]. repeat split; try discriminate; auto.
      * intros e [= <-]. auto.
      * intros (_ & t & [=] & _).
  - assert (E : IndexView.__init__ stock_market_data index w
                = (Raise Warning, w)).
    { unfold IndexView.__init__.
      destruct (Str.mem (Str.upper index) AVAILABLE_INDEX) eqn:E;
        [|reflexivity].
      apply mem_SP500 in E. contradiction. }
    rewrite E. cbn [fst]. repeat split; try discriminate; try tauto.
    intros e [= <-]. auto.
Qed.

(** Reference data without any table; reference data whose table has no
    sector column. *)
Lemma X16_constructor_failures_witness :
  fst (IndexView.__init__ (fun _ => None) "Sp500" (Sample.serving Sample.page))
  = Raise AttributeError /\
  fst (IndexView.__init__ (fun _ => Some (Pd.mkDataFrame ["Ticker"] []))
                          "Sp500" (Sample.serving Sample.page))
  = Raise KeyError.
Proof.
  split.
  - apply (proj1 (proj2 (proj2 (X16_constructor_failures
                                  (fun _ => None) "Sp500"
                                  (Sample.serving Sample.page) eq_refl)))).
    split; reflexivity.
  - apply (proj2 (proj2 (proj2 (X16_constructor_failures
                                  (fun _ => Some (Pd.mkDataFrame ["Ticker"] []))
                                  "Sp500" (Sample.serving Sample.page)
                                  eq_refl)))).
    split; [reflexivity|]. eexists. split; [reflexivity|].
    simpl. intuition discriminate.
Defined.

(** ** [IndexView.summary] *)

Lemma key_lt_trans (a b c : string) : key_lt a b -> key_lt b c -> key_lt a c.
Proof.
  unfold key_lt. rewrite !OrderedTypeEx.String_as_OT.cmp_lt.
  apply OrderedTypeEx.String_as_OT.lt_trans.
Qed.

Lemma key_lt_irrefl (a : string) : ~ key_lt a a.
Proof.
  unfold key_lt. intros H.
  assert (E : String.compare a a = Eq)
    by now apply OrderedTypeEx.String_as_OT.cmp_eq.
  congruence.
Qed.

Lemma compare_Gt_lt (a b : string) : String.compare a b = Gt -> key_lt b a.
Proof.
  unfold key_lt. intros H. rewrite String.compare_antisym, H. reflexivity.
Qed.

Lemma in_insert_key (x s : string) (keys : list string) :
  In x (insert_key s keys) <-> x = s \/ In x keys.
Proof.
  induction keys as [|k keys IH]; simpl; [intuition|].
  destruct (String.compare s k) eqn:E; simpl.
  - apply OrderedTypeEx.String_as_OT.cmp_eq in E. subst. intuition.
  - intuition.
  - rewrite IH. intuition.
Qed.

Lemma in_group_keys (s : string) (col : list (option string)) :
  In s (group_keys col) <-> In (Some s) col.
Proof.
  induction col as [|[s'|] col IH]; simpl.
  - tauto.
  - rewrite in_insert_key, IH. split.
    + intros [->|H]; auto.
    + intros [[= ->]|H]; auto.
  - rewrite IH. split; [auto|]. intros [H|H]; [discriminate|assumption].
Qed.

Lemma HdRel_insert_key (k s : string) (keys : list string) :
  HdRel key_lt k keys -> key_lt k s -> HdRel key_lt k (insert_key s keys).
Proof.
  intros Hhd Hks. destruct keys as [|k' keys]; simpl.
  - now constructor.
  - inversion Hhd; subst.
    destruct (String.compare s k'); now constructor.
Qed.

Lemma Sorted_insert_key (s : string) (keys : list string) :
  Sorted key_lt keys -> Sorted key_lt (insert_key s keys).
Proof.
  induction 1 as [|k keys Hs IH Hhd]; simpl.
  - repeat constructor.
  - destruct (String.compare s k) eqn:E.
    + now constructor.
    + constructor; [now constructor|]. now constructor.
    + constructor; [exact IH|].
      apply HdRel_insert_key; [exact Hhd|]. now apply compare_Gt_lt.
Qed.

Lemma Sorted_group_keys (col : list (option string)) :
  Sorted key_lt (group_keys col).
Proof.
  induction col as [|[s|] col IH]; simpl; [constructor| |exact IH].
  now apply Sorted_insert_key.
Qed.

Lemma NoDup_group_keys (col : list (option string)) :
  NoDup (group_keys col).
Proof.
  pose proof (Sorted_group_keys col) as Hs.
  apply Sorted_StronglySorted in Hs; [|exact key_lt_trans].
  induction Hs as [|k keys _ IH Hall]; constructor; [|exact IH].
  intros Hin. rewrite Forall_forall in Hall.
  exact (key_lt_irrefl (Hall _ Hin)).
Qed.

Lemma get_map_keys (f : string -> nat) (s : string) (keys : list string) :
  Dict.get s (map (fun k => (k, f k)) keys) =
  if in_dec string_dec s keys then Some (f s) else None.
Proof.
  induction keys as [|k keys IH]; simpl; [reflexivity|].
  destruct (String.eqb_spec k s) as [->|Hne].
  - destruct (string_dec s s); [reflexivity|congruence].
  - rewrite IH. destruct (string_dec k s); [congruence|].
    destruct (in_dec string_dec s keys); reflexivity.
Qed.

Lemma list_sum_indicator (s0 : string) (keys : list string) :
  NoDup keys ->
  list_sum (map (fun s => if String.eqb s0 s then 1 else 0) keys) =
  if in_dec string_dec s0 keys then 1 else 0.
Proof.
  induction 1 as [|k keys Hk Hnd IH]; simpl; [reflexivity|].
  rewrite IH. destruct (String.eqb_spec s0 k) as [->|Hne].
  - destruct (string_dec k k); [|congruence].
    destruct (in_dec string_dec k keys); [contradiction|reflexivity].
  - destruct (string_dec k s0); [congruence|].
    destruct (in_dec string_dec s0 keys); reflexivity.
Qed.

Lemma list_sum_map_add (A : Type) (f g : A -> nat) (l : list A) :
  list_sum (map (fun x => f x + g x) l)
  = list_sum (map f l) + list_sum (map g l).
Proof. induction l as [|x l IH]; simpl; [reflexivity|]. rewrite IH. lia. Qed.

(** The counts of the groups add up to the counted rows. *)
Lemma list_sum_group_count
    (rows : list (option string * option string)) (keys : list string) :
  NoDup keys ->
  (forall a s, In (a, Some s) rows -> In s keys) ->
  list_sum (map (group_count rows) keys)
  = List.length (filter counted rows).
Proof.
  intros Hnd. induction rows as [|[a b] rows IH]; intros Hin.
  - clear Hnd Hin. induction keys as [|k keys IHk]; [reflexivity|].
    exact IHk.
  - assert (IH' : list_sum (map (group_count rows) keys)
                  = List.length (filter counted rows)).
    { apply IH. intros a' s' H. apply (Hin a' s'). now right. }
    destruct a as [t|], b as [s0|].
    + rewrite (map_ext _ (fun s => (if String.eqb s0 s then 1 else 0)
                                   + group_count rows s)).
      * rewrite list_sum_map_add, list_sum_indicator, IH' by assumption.
        destruct (in_dec string_dec s0 keys) as [|Hn]; [reflexivity|].
        exfalso. apply Hn. apply (Hin (Some t) s0). now left.
      * intros s. unfold group_count. cbn [filter].
        destruct (String.eqb s0 s); reflexivity.
    + rewrite (map_ext _ (group_count rows)) by (intros s; reflexivity).
      exact IH'.
    + rewrite (map_ext _ (group_count rows)) by (intros s; reflexivity).
      exact IH'.
    + rewrite (map_ext _ (group_count rows)) by (intros s; reflexivity).
      exact IH'.
Qed.

(** The first access to [summary], on a view with the column names of the
    constructor. *)
Lemma summary_fresh (self : IndexView.t) :
  IndexView._summary self = None ->
  getkey (IndexView._column_names self) "ticker_symbol" = Return "Ticker" ->
  getkey (IndexView._column_names self) "ticker_sector" = Return "Sector" ->
  summary self =
  let? counts := groupby_count (IndexView.data self) "Ticker" "Sector" in
  Return (set_summary self [("sector_count", [("sector_count", counts)])]).
Proof.
  intros Hnone Ha Hb. unfold summary. rewrite Hnone, Ha, Hb. cbn [obind].
  destruct (groupby_count (IndexView.data self) "Ticker" "Sector");
    reflexivity.
Qed.

Lemma column_length (df : Pd.DataFrame) (name : string)
    (cells : list (option string)) :
  IndexView.column df name = Return cells ->
  List.length cells = List.length (Pd.values df).
Proof.
  unfold IndexView.column.
  destruct (IndexView.position name (Pd.columns df)); [|discriminate].
  intros [= <-]. apply length_map.
Qed.

(** X17: the first access to [summary], on a view whose table has the
    columns "Ticker" and "Sector", stores the sector counts: one entry for
    each sector of the table that is not null, in ascending order of the
    sector names, holding the number of the sector's rows that have a ticker;
    the counts add up to the number of rows that have both a ticker and a
    sector. *)
Theorem X17_summary_counts
    (self : IndexView.t) (tickers sectors : list (option string)) :
  IndexView._summary self = None ->
  getkey (IndexView._column_names self) "ticker_symbol" = Return "Ticker" ->
  getkey (IndexView._column_names self) "ticker_sector" = Return "Sector" ->
  NoDup (Pd.columns (IndexView.data self)) ->
  IndexView.column (IndexView.data self) "Ticker" = Return tickers ->
  IndexView.column (IndexView.data self) "Sector" = Return sectors ->
  exists counts,
    summary self =
    Return (set_summary self [("sector_count", [("sector_count", counts)])]) /\
    Sorted key_lt (Dict.keys counts) /\
    (forall s, In s (Dict.keys counts) <-> In (Some s) sectors) /\
    (forall s, In (Some s) sectors ->
               Dict.get s counts
               = Some (group_count (combine tickers sectors) s)) /\
    list_sum (map snd counts)
    = List.length (filter counted (combine tickers sectors)).
Proof.
  intros Hnone Ha Hb _ Ht Hs.
  rewrite (summary_fresh self Hnone Ha Hb).
  unfold groupby_count. rewrite Ht, Hs. cbn [obind].
  eexists. split; [reflexivity|].
  unfold Dict.keys. rewrite !map_map. cbn [fst snd]. rewrite map_id.
  split; [apply Sorted_group_keys|].
  split; [intros s; apply in_group_keys|]. split.
  - intros s Hin. rewrite get_map_keys.
    destruct (in_dec string_dec s (group_keys sectors)) as [|Hn];
      [reflexivity|].
    exfalso. apply Hn. now apply in_group_keys.
  - apply list_sum_group_count; [apply NoDup_group_keys|].
    intros a s Hin. apply in_group_keys. eapply in_combine_r; eassumption.
Qed.

(** The sample table: two sectors, three tickers in one of them. *)
Lemma X17_summary_counts_witness :
  exists counts,
    summary {| IndexView.data := SampleData.table;
               IndexView._column_names :=
                 [("ticker_symbol", "Ticker"); ("ticker_full", "Name");
                  ("ticker_sector", "Sector")];
               IndexView.sector_list := [Some "Energy"; Some "Utilities"];
               IndexView._summary := None |} =
    Return {| IndexView.data := SampleData.table;
              IndexView._column_names :=
                [("ticker_symbol", "Ticker"); ("ticker_full", "Name");
                 ("ticker_sector", "Sector")];
              IndexView.sector_list := [Some "Energy"; Some "Utilities"];
              IndexView._summary :=
                Some [("sector_count", [("sector_count", counts)])] |} /\
    counts = [("Energy", 1); ("Utilities", 2)].
Proof.
  destruct (@X17_summary_counts
              {| IndexView.data := SampleData.table;
                 IndexView._column_names :=
                   [("ticker_symbol", "Ticker"); ("ticker_full", "Name");
                    ("ticker_sector", "Sector")];
                 IndexView.sector_list := [Some "Energy"; Some "Utilities"];
                 IndexView._summary := None |}
              [Some "AAA"; Some "BBB"; None; Some "DDD"]
              [Some "Utilities"; Some "Energy"; Some "Utilities";
               Some "Utilities"]
              eq_refl eq_refl eq_refl
              ltac:(repeat constructor; simpl; intuition discriminate)
              eq_refl eq_refl)
    as (counts & Hrun & _).
  exists counts. split; [exact Hrun|].
  vm_compute in Hrun. now injection Hrun as <-.
Defined.

(** X18: the summary is computed once.  On a view that already holds a
    summary, [summary] returns the view as it is without reading the table;
    hence a second access after a first one that returned changes
    nothing. *)
Theorem X18_summary_cached :
  (forall (self : IndexView.t) index_info sector_count,
     IndexView._summary self = Some index_info ->
     Dict.get "sector_count" index_info = Some sector_count ->
     summary self = Return self) /\
  (forall self self' : IndexView.t,
     summary self = Return self' -> summary self' = Return self').
Proof.
  assert (Hcached : forall (self : IndexView.t) index_info sector_count,
             IndexView._summary self = Some index_info ->
             Dict.get "sector_count" index_info = Some sector_count ->
             summary self = Return self).
  { intros self index_info sector_count Hs Hget.
    unfold summary, getkey. rewrite Hs. cbn [obind]. rewrite Hs.
    cbn [obind]. now rewrite Hget. }
  split; [exact Hcached|].
  intros self self' Hrun. unfold summary in Hrun.
  destruct (IndexView._summary self) as [index_info|] eqn:Hs.
  - cbn [obind] in Hrun. rewrite Hs in Hrun. cbn [obind] in Hrun.
    unfold getkey in Hrun.
    destruct (Dict.get "sector_count" index_info) as [sc|] eqn:Hget;
      [|discriminate].
    injection Hrun as <-. exact (Hcached self index_info sc Hs Hget).
  - destruct (getkey (IndexView._column_names self) "ticker_symbol")
      as [a|]; [|discriminate]. cbn [obind] in Hrun.
    destruct (getkey (IndexView._column_names self) "ticker_sector")
      as [b|]; [|discriminate]. cbn [obind] in Hrun.
    destruct (groupby_count (IndexView.data self) a b) as [counts|];
      [|discriminate].
    simpl in Hrun. injection Hrun as <-.
    eapply Hcached; reflexivity.
Qed.

(** A view with its summary set and a table without ticker column. *)
Lemma X18_summary_cached_witness :
  summary {| IndexView.data := SampleData.table_no_ticker;
             IndexView._column_names :=
               [("ticker_symbol", "Ticker"); ("ticker_full", "Name");
                ("ticker_sector", "Sector")];
             IndexView.sector_list := [Some "Energy"; Some "Utilities"];
             IndexView._summary :=
               Some [("sector_count",
                      [("sector_count", [("Energy", 1); ("Utilities", 2)])])]
          |}
  = Return {| IndexView.data := SampleData.table_no_ticker;
              IndexView._column_names :=
                [("ticker_symbol", "Ticker"); ("ticker_full", "Name");
                 ("ticker_sector", "Sector")];
              IndexView.sector_list := [Some "Energy"; Some "Utilities"];
              IndexView._summary :=
                Some [("sector_count",
                       [("sector_count", [("Energy", 1); ("Utilities", 2)])])]
           |}.
Proof.
  apply (proj1 X18_summary_cached _
           [("sector_count",
             [("sector_count", [("Energy", 1); ("Utilities", 2)])])]
           [("sector_count", [("Energy", 1); ("Utilities", 2)])]);
    reflexivity.
Defined.

(** X19: on a table with distinct column names, the first access to
    [summary] fails exactly when the table lacks one of the columns "Ticker"
    and "Sector", and then with KeyError. *)
Theorem X19_summary_missing_column (self : IndexView.t) (e : exn) :
  IndexView._summary self = None ->
  getkey (IndexView._column_names self) "ticker_symbol" = Return "Ticker" ->
  getkey (IndexView._column_names self) "ticker_sector" = Return "Sector" ->
  NoDup (Pd.columns (IndexView.data self)) ->
  (summary self = Raise e <->
   e = KeyError /\
   (~ In "Ticker" (Pd.columns (IndexView.data self)) \/
    ~ In "Sector" (Pd.columns (IndexView.data self)))).
Proof.
  intros Hnone Ha Hb _. rewrite (summary_fresh self Hnone Ha Hb).
  unfold groupby_count, IndexView.column.
  destruct (IndexView.position "Ticker" (Pd.columns (IndexView.data self)))
    as [i|] eqn:Hi.
  - assert (HinT : In "Ticker" (Pd.columns (IndexView.data self))).
    { destruct (in_dec string_dec "Ticker"
                  (Pd.columns (IndexView.data self))) as [|n]; auto.
      apply position_None in n. congruence. }
    destruct (IndexView.position "Sector" (Pd.columns (IndexView.data self)))
      as [j|] eqn:Hj; cbn [obind].
    + assert (HinS : In "Sector" (Pd.columns (IndexView.data self))).
      { destruct (in_dec string_dec "Sector"
                    (Pd.columns (IndexView.data self))) as [|n]; auto.
        apply position_None in n. congruence. }
      split; [discriminate|]. intros (_ & [H|H]); contradiction.
    + apply position_None in Hj. split.
      * intros [= <-]. auto.
      * intros (-> & _). reflexivity.
  - apply position_None in Hi. cbn [obind]. split.
    + intros [= <-]. auto.
    + intros (-> & _). reflexivity.
Qed.

(** A fresh view on the table without ticker column. *)
Lemma X19_summary_missing_column_witness :
  summary {| IndexView.data := SampleData.table_no_ticker;
             IndexView._column_names :=
               [("ticker_symbol", "Ticker"); ("ticker_full", "Name");
                ("ticker_sector", "Sector")];
             IndexView.sector_list := [Some "Energy"; Some "Utilities"];
             IndexView._summary := None |}
  = Raise KeyError.
Proof.
  apply (proj2 (@X19_summary_missing_column
                  {| IndexView.data := SampleData.table_no_ticker;
                     IndexView._column_names :=
                       [("ticker_symbol", "Ticker"); ("ticker_full", "Name");
                        ("ticker_sector", "Sector")];
                     IndexView.sector_list :=
                       [Some "Energy"; Some "Utilities"];
                     IndexView._summary := None |}
                  KeyError eq_refl eq_refl eq_refl
                  ltac:(repeat constructor; simpl; intuition discriminate))).
  split; [reflexivity|]. left. simpl. intuition discriminate.
Defined.

(** X20: construction and summary together.  For a supported identifier
    whose table has the columns "Ticker" and "Sector", the constructor
    returns a view on which the first access to [summary] succeeds; the
    sectors counted are exactly the sectors of the view's sector list that
    are not null, and the counts add up to no more than the number of rows
    of the table. *)
Theorem X20_constructor_then_summary
    (stock_market_data : string -> option Pd.DataFrame)
    (index : string) (w : world) (table : Pd.DataFrame)
    (tickers sectors : list (option string)) :
  Str.upper index = "SP500" ->
  stock_market_data "SP500" = Some table ->
  NoDup (Pd.columns table) ->
  IndexView.column table "Ticker" = Return tickers ->
  IndexView.column table "Sector" = Return sectors ->
  exists view counts,
    IndexView.__init__ stock_market_data index w = (Return view, w) /\
    summary view =
    Return (set_summary view [("sector_count", [("sector_count", counts)])]) /\
    (forall s, In s (Dict.keys counts)
               <-> In (Some s) (IndexView.sector_list view)) /\
    list_sum (map snd counts) <= List.length (Pd.values table).
Proof.
  intros Hup Htable _ Ht Hs.
  rewrite (__init___supported stock_market_data index w Hup), Htable, Hs.
  eexists. eexists. split; [reflexivity|].
  rewrite summary_fresh by reflexivity.
  cbn [IndexView.data]. unfold groupby_count. rewrite Ht, Hs. cbn [obind].
  split; [reflexivity|].
  unfold Dict.keys. rewrite !map_map. cbn [fst snd IndexView.sector_list].
  rewrite map_id. split.
  - intros s. rewrite in_group_keys.
    destruct (list_set_spec sectors) as [_ Hin]. now rewrite Hin.
  - rewrite list_sum_group_count.
    + etransitivity; [apply filter_length_le|].
      rewrite length_combine, (column_length _ _ Ht). apply Nat.le_min_l.
    + apply NoDup_group_keys.
    + intros a s Hin. apply in_group_keys. eapply in_combine_r; eassumption.
Qed.

(** The sample table under the identifier in lower case. *)
Lemma X20_constructor_then_summary_witness :
  exists view counts,
    IndexView.__init__ SampleData.stock_market_data "sp500"
                       (Sample.serving Sample.page)
    = (Return view, Sample.serving Sample.page) /\
    summary view =
    Return (set_summary view [("sector_count", [("sector_count", counts)])]) /\
    (forall s, In s (Dict.keys counts)
               <-> In (Some s) (IndexView.sector_list view)) /\
    list_sum (map snd counts) <= 4.
Proof.
  apply (@X20_constructor_then_summary SampleData.stock_market_data "sp500"
           (Sample.serving Sample.page) SampleData.table
           [Some "AAA"; Some "BBB"; None; Some "DDD"]
           [Some "Utilities"; Some "Energy"; Some "Utilities";
            Some "Utilities"]); try reflexivity.
  repeat constructor; simpl; intuition discriminate.
Defined.
